(** * The MCP HTTP bridge (src/http_server.py, src/http_transport.py)

    A shallow embedding of the bridge between the HTTP transport and the
    stdio MCP server, and the properties of its request handlers.

    Python text is modelled by [string] (characters are the code points
    U+0000..U+00FF), JSON values by the inductive [Json] (the float-free
    fragment), Python exceptions by [exn], and a call that may return, raise
    or block by [outcome]. *)

From Stdlib Require Import ZArith String Ascii List Bool Lia DecimalString.
Import ListNotations.
Local Open Scope string_scope.

(** ** Characters that cannot be written inside a literal *)

Definition ch_newline : ascii := ascii_of_nat 10.
Definition ch_quote : ascii := ascii_of_nat 34.
Definition ch_backslash : ascii := ascii_of_nat 92.

(** The one-character text that Python writes ["\n"]. *)
Definition newline : string := String ch_newline EmptyString.

(** The two-character text that Python writes ["\\n"]: a backslash followed
    by the letter n. *)
Definition backslash_n : string :=
  String ch_backslash (String (ascii_of_nat 110) EmptyString).

(** ** Exceptions *)

Module Py.

(** The exception classes that the bridge, its pipes and the JSON library
    can raise, with the part of the class hierarchy that [except] clauses of
    the source look at. *)
Inductive exn_class : Type :=
| OSError
| BrokenPipeError
| FileNotFoundError
| PermissionError
| ValueError
| JSONDecodeError
| UnicodeDecodeError
| TypeError
| RecursionError
| RuntimeError
| AttributeError
| KeyboardInterrupt
| SystemExit
| CancelledError
| GeneratorExit.

Record exn : Type := mk_exn {
  exn_cls : exn_class;
  exn_msg : string
}.

(** [isinstance(e, Exception)]: everything but the four classes that derive
    from [BaseException] directly. *)
Definition is_Exception (e : exn) : bool :=
  match exn_cls e with
  | KeyboardInterrupt | SystemExit | CancelledError | GeneratorExit => false
  | _ => true
  end.

(** [isinstance(e, KeyboardInterrupt)] *)
Definition is_KeyboardInterrupt (e : exn) : bool :=
  match exn_cls e with
  | KeyboardInterrupt => true
  | _ => false
  end.

(** [str(e)] *)
Definition str (e : exn) : string := exn_msg e.

(** What a call does: it returns a value, raises, or never comes back (a
    blocking read or write that is never served). *)
Inductive outcome (A : Type) : Type :=
| Return (a : A)
| Raise (e : exn)
| Hang.

Arguments Return {A} a.
Arguments Raise {A} e.
Arguments Hang {A}.

(** Stateful calls: they thread a state of type [S]. *)
Definition M (S A : Type) : Type := S -> outcome A * S.

Definition ret {S A} (a : A) : M S A := fun s => (Return a, s).

Definition raise {S A} (e : exn) : M S A := fun s => (Raise e, s).

Definition bind {S A B} (m : M S A) (k : A -> M S B) : M S B :=
  fun s =>
    match m s with
    | (Return a, s') => k a s'
    | (Raise e, s') => (Raise e, s')
    | (Hang, s') => (Hang, s')
    end.

Definition gets {S A} (f : S -> A) : M S A := fun s => (Return (f s), s).

Definition modify {S} (f : S -> S) : M S unit := fun s => (Return tt, f s).

(** A library call that cannot block, used inside stateful code. *)
Definition lift {S A} (r : exn + A) : M S A :=
  fun s =>
    match r with
    | inl e => (Raise e, s)
    | inr a => (Return a, s)
    end.

(** [try: body  except Exception as e: handler(e)] *)
Definition try_except_Exception {S A} (body : M S A) (handler : exn -> M S A)
  : M S A :=
  fun s =>
    match body s with
    | (Raise e, s') =>
        if is_Exception e then handler e s' else (Raise e, s')
    | r => r
    end.

(** [try: body  except KeyboardInterrupt: handler] *)
Definition try_except_KeyboardInterrupt {S A} (body : M S A) (handler : M S A)
  : M S A :=
  fun s =>
    match body s with
    | (Raise e, s') =>
        if is_KeyboardInterrupt e then handler s' else (Raise e, s')
    | r => r
    end.

(** [try: body  finally: cleanup]. The cleanup runs when the body returns or
    raises; what the body did stands unless the cleanup itself raises or
    blocks. *)
Definition try_finally {S A} (body : M S A) (cleanup : M S unit) : M S A :=
  fun s =>
    match body s with
    | (Hang, s') => (Hang, s')
    | (r, s') =>
        match cleanup s' with
        | (Return _, s'') => (r, s'')
        | (Raise e, s'') => (Raise e, s'')
        | (Hang, s'') => (Hang, s'')
        end
    end.

End Py.

Export Py.

Declare Scope py_scope.
Delimit Scope py_scope with py.
Notation "x <- m ;; k" := (bind m (fun x => k))
  (at level 61, m at next level, right associativity) : py_scope.
Notation "m ;; k" := (bind m (fun _ => k))
  (at level 61, right associativity) : py_scope.

(** ** Text *)

(** [c.isspace()] for the code points below U+0100. *)
Definition py_isspace (c : ascii) : bool :=
  let n := nat_of_ascii c in
  ((9 <=? n)%nat && (n <=? 13)%nat) || ((28 <=? n)%nat && (n <=? 32)%nat)
  || (n =? 133)%nat || (n =? 160)%nat.

Fixpoint lstrip (s : string) : string :=
  match s with
  | EmptyString => EmptyString
  | String c s' => if py_isspace c then lstrip s' else s
  end.

(** Removes the trailing white space: a character is kept when something
    that is kept follows it, or when it is not white space. *)
Fixpoint rstrip (s : string) : string :=
  match s with
  | EmptyString => EmptyString
  | String c s' =>
      match rstrip s' with
      | EmptyString => if py_isspace c then EmptyString else String c EmptyString
      | r => String c r
      end
  end.

(** [s.strip()] *)
Definition strip (s : string) : string := rstrip (lstrip s).

(** [bool(s)] for a text: the empty text is false. *)
Definition truthy (s : string) : bool :=
  match s with
  | EmptyString => false
  | String _ _ => true
  end.

(** [sep.join(parts)] *)
Fixpoint join (sep : string) (parts : list string) : string :=
  match parts with
  | [] => EmptyString
  | [p] => p
  | p :: rest => p ++ sep ++ join sep rest
  end.

(** [str(n)] for an integer. *)
Definition string_of_nat (n : nat) : string :=
  NilZero.string_of_uint (Nat.to_uint n).

Definition string_of_Z (z : Z) : string :=
  NilZero.string_of_int (Z.to_int z).

(** ** JSON values *)

(** What [json.loads] produces and [json.dumps] accepts: [None], [bool],
    [int], [str], [list] and [dict] (insertion-ordered, text keys). *)
#[warnings="-register-all"]
Inductive Json : Type :=
| JNull
| JBool (b : bool)
| JInt (z : Z)
| JStr (s : string)
| JList (l : list Json)
| JDict (d : list (string * Json)).

(** [key in d] for a value that is a dictionary; no other value of the
    bridge's replies has keys. *)
Definition has_key (k : string) (v : Json) : bool :=
  match v with
  | JDict d => existsb (fun kv => String.eqb (fst kv) k) d
  | _ => false
  end.

(** [d.get(key)] *)
Definition get_key (k : string) (v : Json) : option Json :=
  match v with
  | JDict d =>
      match find (fun kv => String.eqb (fst kv) k) d with
      | Some kv => Some (snd kv)
      | None => None
      end
  | _ => None
  end.

(** [isinstance(v, dict)] *)
Definition is_dict (v : Json) : bool :=
  match v with
  | JDict _ => true
  | _ => false
  end.

(** The dictionary [{"error": msg}]. *)
Definition error_dict (msg : string) : Json := JDict [("error", JStr msg)].

(** The JSON library as the bridge uses it: [json.dumps] and [json.loads],
    which return or raise, and raise instances of [Exception] only
    ([TypeError], [ValueError], [JSONDecodeError], [RecursionError]). *)
Class JsonLib : Type := {
  json_dumps : Json -> exn + string;
  json_loads : string -> exn + Json;
  json_dumps_raises : forall v e, json_dumps v = inl e -> is_Exception e = true;
  json_loads_raises : forall s e, json_loads s = inl e -> is_Exception e = true
}.

(** ** A reference instance of the JSON library

    [py_dumps] and [py_loads] follow [json.dumps] and [json.loads] with their
    default arguments on the float-free fragment of JSON and on text whose
    characters are below U+0100. They serve to run the handlers on concrete
    requests and reply lines; the theorems hold for every [JsonLib]. *)

Module PyJson.

Definition hex_digit (n : nat) : ascii :=
  if (n <? 10)%nat then ascii_of_nat (48 + n) else ascii_of_nat (87 + n).

(** [\u00XX] *)
Definition u_escape (n : nat) : string :=
  String ch_backslash
    (String "u" (String "0" (String "0"
      (String (hex_digit (n / 16)) (String (hex_digit (n mod 16)) EmptyString))))).

Definition escape_char (c : ascii) : string :=
  let n := nat_of_ascii c in
  let esc (l : ascii) := String ch_backslash (String l EmptyString) in
  if (n =? 34)%nat then esc ch_quote
  else if (n =? 92)%nat then esc ch_backslash
  else if (n =? 10)%nat then esc "n"%char
  else if (n =? 13)%nat then esc "r"%char
  else if (n =? 9)%nat then esc "t"%char
  else if (n =? 8)%nat then esc "b"%char
  else if (n =? 12)%nat then esc "f"%char
  else if (n <? 32)%nat || (126 <? n)%nat then u_escape n
  else String c EmptyString.

Fixpoint escape_chars (s : string) : string :=
  match s with
  | EmptyString => EmptyString
  | String c s' => escape_char c ++ escape_chars s'
  end.

(** [encode_basestring_ascii] *)
Definition encode_string (s : string) : string :=
  String ch_quote (escape_chars s ++ String ch_quote EmptyString).

(** [json.dumps(v)]: separators [", "] and [": "], keys in insertion order,
    non-ASCII characters escaped. *)
Fixpoint py_dumps (v : Json) : string :=
  match v with
  | JNull => "null"
  | JBool true => "true"
  | JBool false => "false"
  | JInt z => string_of_Z z
  | JStr s => encode_string s
  | JList l => "[" ++ join ", " (map py_dumps l) ++ "]"
  | JDict d =>
      "{" ++ join ", "
               (map (fun kv => match kv with
                               | (k, x) => encode_string k ++ ": " ++ py_dumps x
                               end) d)
          ++ "}"
  end.

(** *** Decoding *)

(** A decoding error: the message and the text from the error position on. *)
Record perr : Type := mk_perr {
  perr_msg : string;
  perr_rest : string
}.

Definition presult (A : Type) : Type := (perr + (A * string))%type.

Definition pmap {A B} (f : A -> B) (r : presult A) : presult B :=
  match r with
  | inl e => inl e
  | inr (a, rest) => inr (f a, rest)
  end.

(** The white space of the JSON grammar: space, tab, line feed, return. *)
Definition json_ws (c : ascii) : bool :=
  let n := nat_of_ascii c in
  (n =? 32)%nat || (n =? 9)%nat || (n =? 10)%nat || (n =? 13)%nat.

Fixpoint skip_ws (s : string) : string :=
  match s with
  | EmptyString => EmptyString
  | String c s' => if json_ws c then skip_ws s' else s
  end.

Definition hex_value (c : ascii) : option nat :=
  let n := nat_of_ascii c in
  if (48 <=? n)%nat && (n <=? 57)%nat then Some (n - 48)
  else if (97 <=? n)%nat && (n <=? 102)%nat then Some (n - 87)
  else if (65 <=? n)%nat && (n <=? 70)%nat then Some (n - 55)
  else None.

Definition hex4 (a b c d : ascii) : option nat :=
  match hex_value a, hex_value b, hex_value c, hex_value d with
  | Some x, Some y, Some z, Some w => Some (((x * 16 + y) * 16 + z) * 16 + w)
  | _, _, _, _ => None
  end.

(** The character an escape letter stands for. *)
Definition unescape (c : ascii) : option ascii :=
  let n := nat_of_ascii c in
  if (n =? 34)%nat then Some ch_quote
  else if (n =? 92)%nat then Some ch_backslash
  else if (n =? 47)%nat then Some "/"%char
  else if (n =? 98)%nat then Some (ascii_of_nat 8)
  else if (n =? 102)%nat then Some (ascii_of_nat 12)
  else if (n =? 110)%nat then Some (ascii_of_nat 10)
  else if (n =? 114)%nat then Some (ascii_of_nat 13)
  else if (n =? 116)%nat then Some (ascii_of_nat 9)
  else None.

(** [scanstring]: the text after an opening quote, up to the closing one.
    [start] is the text from the opening quote on, where an unterminated
    string is reported. *)
Fixpoint scan_string (start s : string) : presult string :=
  match s with
  | EmptyString => inl (mk_perr "Unterminated string starting at" start)
  | String c rest =>
      if Ascii.eqb c ch_quote then inr (EmptyString, rest)
      else if Ascii.eqb c ch_backslash then
        match rest with
        | EmptyString => inl (mk_perr "Unterminated string starting at" start)
        | String e rest' =>
            match unescape e with
            | Some x => pmap (String x) (scan_string start rest')
            | None =>
                if Ascii.eqb e "u" then
                  match rest' with
                  | String h1 (String h2 (String h3 (String h4 rest''))) =>
                      match hex4 h1 h2 h3 h4 with
                      | Some n =>
                          if (n <? 256)%nat
                          then pmap (String (ascii_of_nat n))
                                    (scan_string start rest'')
                          else inl (mk_perr "character above U+00FF" s)
                      | None => inl (mk_perr "Invalid \uXXXX escape" rest)
                      end
                  | _ => inl (mk_perr "Invalid \uXXXX escape" rest)
                  end
                else inl (mk_perr "Invalid \escape" s)
            end
        end
      else if (nat_of_ascii c <? 32)%nat
      then inl (mk_perr "Invalid control character at" s)
      else pmap (String c) (scan_string start rest)
  end.

Definition is_digit (c : ascii) : bool :=
  let n := nat_of_ascii c in (48 <=? n)%nat && (n <=? 57)%nat.

(** The digits at the head of a text, as a number, and what follows. *)
Fixpoint scan_digits (acc : Z) (s : string) : Z * string :=
  match s with
  | String c rest =>
      if is_digit c
      then scan_digits (10 * acc + Z.of_nat (nat_of_ascii c - 48)) rest
      else (acc, s)
  | EmptyString => (acc, s)
  end.

(** A text that goes on as a fraction or an exponent is a float. *)
Definition float_follows (s : string) : bool :=
  match s with
  | String c (String d rest) =>
      if Ascii.eqb c "." then is_digit d
      else if Ascii.eqb c "e" || Ascii.eqb c "E" then
        is_digit d
        || ((Ascii.eqb d "+" || Ascii.eqb d "-")
            && match rest with String x _ => is_digit x | _ => false end)
      else false
  | _ => false
  end.

(** An optional minus sign, then a zero or a digit run without a leading
    zero; [start] is where the number began. *)
Definition scan_number (start : string) (negative : bool) (s : string)
  : presult Json :=
  match s with
  | String c rest =>
      if is_digit c then
        let '(n, rest') :=
          if Ascii.eqb c "0" then (0%Z, rest) else scan_digits 0 s in
        if float_follows rest'
        then inl (mk_perr "float outside the modelled fragment" start)
        else inr (JInt (if negative then (- n)%Z else n), rest')
      else inl (mk_perr "Expecting value" start)
  | EmptyString => inl (mk_perr "Expecting value" start)
  end.

(** [d[k] = v]: a key that is present keeps its place. *)
Fixpoint dict_set (d : list (string * Json)) (k : string) (v : Json)
  : list (string * Json) :=
  match d with
  | [] => [(k, v)]
  | (k', v') :: d' =>
      if String.eqb k' k then (k, v) :: d' else (k', v') :: dict_set d' k v
  end.

(** What follows the prefix [p] in [s], when [s] starts with it. *)
Fixpoint starts_with (p s : string) : option string :=
  match p, s with
  | EmptyString, _ => Some s
  | String a p', String b s' => if Ascii.eqb a b then starts_with p' s' else None
  | String _ _, EmptyString => None
  end.

Definition expecting_name : string :=
  "Expecting property name enclosed in double quotes".


(** [scan_once], [JSONObject] and [JSONArray] of json.decoder and
    json.scanner. [fuel] bounds the nesting of calls. *)
Fixpoint parse_value (fuel : nat) (s : string) {struct fuel} : presult Json :=
  match fuel with
  | O => inl (mk_perr "maximum recursion depth exceeded" s)
  | S fuel' =>
      match s with
      | EmptyString => inl (mk_perr "Expecting value" s)
      | String c rest =>
          if Ascii.eqb c ch_quote then pmap JStr (scan_string s rest)
          else if Ascii.eqb c "{" then
            let s1 := skip_ws rest in
            match s1 with
            | String c1 r1 =>
                if Ascii.eqb c1 "}" then inr (JDict [], r1)
                else if Ascii.eqb c1 ch_quote then parse_members fuel' s1 []
                else inl (mk_perr expecting_name s1)
            | EmptyString => inl (mk_perr expecting_name s1)
            end
          else if Ascii.eqb c "[" then
            let s1 := skip_ws rest in
            match s1 with
            | String c1 r1 =>
                if Ascii.eqb c1 "]" then inr (JList [], r1)
                else parse_elements fuel' s1 []
            | EmptyString => inl (mk_perr "Expecting value" s1)
            end
          else if Ascii.eqb c "-" then
            match starts_with "Infinity" rest with
            | Some _ => inl (mk_perr "float outside the modelled fragment" s)
            | None => scan_number s true rest
            end
          else
            match starts_with "null" s, starts_with "true" s,
                  starts_with "false" s with
            | Some r, _, _ => inr (JNull, r)
            | _, Some r, _ => inr (JBool true, r)
            | _, _, Some r => inr (JBool false, r)
            | None, None, None =>
                match starts_with "NaN" s, starts_with "Infinity" s with
                | None, None => scan_number s false s
                | _, _ => inl (mk_perr "float outside the modelled fragment" s)
                end
            end
      end
  end

(** The members of an object, from the opening quote of a key on. *)
with parse_members (fuel : nat) (s : string) (acc : list (string * Json))
  {struct fuel} : presult Json :=
  match fuel with
  | O => inl (mk_perr "maximum recursion depth exceeded" s)
  | S fuel' =>
      match s with
      | EmptyString => inl (mk_perr expecting_name s)
      | String c rest =>
          if negb (Ascii.eqb c ch_quote) then inl (mk_perr expecting_name s)
          else
            match scan_string s rest with
            | inl e => inl e
            | inr (key, r1) =>
                let r2 := skip_ws r1 in
                match starts_with ":" r2 with
                | None => inl (mk_perr "Expecting ':' delimiter" r2)
                | Some r3 =>
                    match parse_value fuel' (skip_ws r3) with
                    | inl e => inl e
                    | inr (v, r5) =>
                        let acc' := dict_set acc key v in
                        let r6 := skip_ws r5 in
                        match starts_with "}" r6, starts_with "," r6 with
                        | Some r7, _ => inr (JDict acc', r7)
                        | None, Some r7 => parse_members fuel' (skip_ws r7) acc'
                        | None, None =>
                            inl (mk_perr "Expecting ',' delimiter" r6)
                        end
                    end
                end
            end
      end
  end

(** The elements of an array, from the first character of an element on. *)
with parse_elements (fuel : nat) (s : string) (acc : list Json)
  {struct fuel} : presult Json :=
  match fuel with
  | O => inl (mk_perr "maximum recursion depth exceeded" s)
  | S fuel' =>
      match parse_value fuel' s with
      | inl e => inl e
      | inr (v, r1) =>
          let acc' := (acc ++ [v])%list in
          let r2 := skip_ws r1 in
          match starts_with "]" r2, starts_with "," r2 with
          | Some r3, _ => inr (JList acc', r3)
          | None, Some r3 => parse_elements fuel' (skip_ws r3) acc'
          | None, None => inl (mk_perr "Expecting ',' delimiter" r2)
          end
      end
  end.

(** The position of an error, as [JSONDecodeError] prints it:
    [line L column C (char N)], for the text [doc] and the text [rest] left
    at the error. *)
Fixpoint line_col (doc : string) (n : nat) (line col : nat) : nat * nat :=
  match n, doc with
  | S n', String c doc' =>
      if Ascii.eqb c ch_newline then line_col doc' n' (S line) 1
      else line_col doc' n' line (S col)
  | _, _ => (line, col)
  end.

Definition decode_error (doc : string) (e : perr) : exn :=
  let pos := String.length doc - String.length (perr_rest e) in
  let '(line, col) := line_col doc pos 1 1 in
  mk_exn JSONDecodeError
    (perr_msg e ++ ": line " ++ string_of_nat line
       ++ " column " ++ string_of_nat col
       ++ " (char " ++ string_of_nat pos ++ ")").

(** [json.loads(s)] *)
Definition py_loads (s : string) : exn + Json :=
  match parse_value (2 * String.length s + 2) (skip_ws s) with
  | inl e =>
      if String.eqb (perr_msg e) "maximum recursion depth exceeded"
      then inl (mk_exn RecursionError (perr_msg e))
      else inl (decode_error s e)
  | inr (v, rest) =>
      match skip_ws rest with
      | EmptyString => inr v
      | rest' => inl (decode_error s (mk_perr "Extra data" rest'))
      end
  end.

End PyJson.

(** ** The subprocess and its pipes ([subprocess.Popen], text mode) *)

Module Subprocess.

(** The errors of the operating system and of the text layer that a launch
    or a call on a pipe meets. *)
Inductive io_error : Type :=
| BrokenPipe                     (* the read end of the pipe is gone *)
| ClosedFile                     (* the file object has been closed *)
| Undecodable (msg : string)     (* bytes that are not text *)
| NoSuchFile (msg : string)      (* the executable is missing *)
| NotPermitted (msg : string)
| OtherOSError (msg : string).

(** The exception an error is raised as. Each is an instance of
    [Exception]. *)
Definition exn_of_io (e : io_error) : exn :=
  match e with
  | BrokenPipe => mk_exn BrokenPipeError "[Errno 32] Broken pipe"
  | ClosedFile => mk_exn ValueError "I/O operation on closed file."
  | Undecodable msg => mk_exn UnicodeDecodeError msg
  | NoSuchFile msg => mk_exn FileNotFoundError msg
  | NotPermitted msg => mk_exn PermissionError msg
  | OtherOSError msg => mk_exn OSError msg
  end.

(** What a pipe end does instead of serving a call: it raises or it blocks
    the caller. *)
Inductive fault : Type :=
| Fails (e : io_error)
| Blocks.

(** What [readline] meets once no complete line is left to read. *)
Inductive stream_end : Type :=
| AtEOF                     (* the write end is closed: the subprocess is gone *)
| Waiting                   (* the stream is open and nothing more arrives *)
| Broken (e : io_error).    (* the read raises *)

Record Popen : Type := mk_Popen {
  args : list string;
  (** standard input, bridge to subprocess *)
  stdin_write_fault : option fault;
  stdin_flush_fault : option fault;
  stdin_buffer : string;       (* accepted by [write], not flushed yet *)
  stdin_sent : string;         (* delivered to the subprocess *)
  (** standard output, subprocess to bridge *)
  stdout_text : string;        (* written by the subprocess, not read yet *)
  stdout_end : stream_end;
  (** signals and exit *)
  signalled : bool;            (* [terminate] has been called *)
  wait_fault : option fault
}.

Definition faulty {A} (f : fault) : outcome A :=
  match f with
  | Fails e => Raise (exn_of_io e)
  | Blocks => Hang
  end.

(** [p.stdin.write(data)] *)
Definition stdin_write (data : string) : M Popen unit :=
  fun p =>
    match stdin_write_fault p with
    | Some f => (faulty f, p)
    | None =>
        (Return tt,
         mk_Popen (args p) (stdin_write_fault p) (stdin_flush_fault p)
                  (stdin_buffer p ++ data) (stdin_sent p)
                  (stdout_text p) (stdout_end p) (signalled p) (wait_fault p))
    end.

(** [p.stdin.flush()] *)
Definition stdin_flush : M Popen unit :=
  fun p =>
    match stdin_flush_fault p with
    | Some f => (faulty f, p)
    | None =>
        (Return tt,
         mk_Popen (args p) (stdin_write_fault p) (stdin_flush_fault p)
                  EmptyString (stdin_sent p ++ stdin_buffer p)
                  (stdout_text p) (stdout_end p) (signalled p) (wait_fault p))
    end.

(** The first line of a text, with its newline, and what follows it; [None]
    when the text holds no newline. *)
Fixpoint take_line (s : string) : option (string * string) :=
  match s with
  | EmptyString => None
  | String c rest =>
      if Ascii.eqb c ch_newline then Some (String c EmptyString, rest)
      else
        match take_line rest with
        | Some (line, rest') => Some (String c line, rest')
        | None => None
        end
  end.

Definition set_stdout_text (p : Popen) (t : string) : Popen :=
  mk_Popen (args p) (stdin_write_fault p) (stdin_flush_fault p)
           (stdin_buffer p) (stdin_sent p) t (stdout_end p)
           (signalled p) (wait_fault p).

(** [p.stdout.readline()]: the next line with its newline; at the end of the
    file what is left, which is the empty text when nothing is. *)
Definition stdout_readline : M Popen string :=
  fun p =>
    match take_line (stdout_text p) with
    | Some (line, rest) => (Return line, set_stdout_text p rest)
    | None =>
        match stdout_end p with
        | AtEOF => (Return (stdout_text p), set_stdout_text p EmptyString)
        | Waiting => (Hang, p)
        | Broken e => (Raise (exn_of_io e), p)
        end
    end.

(** [p.terminate()] *)
Definition terminate : M Popen unit :=
  fun p =>
    (Return tt,
     mk_Popen (args p) (stdin_write_fault p) (stdin_flush_fault p)
              (stdin_buffer p) (stdin_sent p) (stdout_text p) (stdout_end p)
              true (wait_fault p)).

(** [p.wait()] *)
Definition wait : M Popen unit :=
  fun p =>
    match wait_fault p with
    | Some f => (faulty f, p)
    | None => (Return tt, p)
    end.

(** A subprocess that has just been launched: nothing written either way. *)
Definition fresh (argv : list string) (out : string) (e : stream_end) : Popen :=
  mk_Popen argv None None EmptyString EmptyString out e false None.

End Subprocess.

Export Subprocess.

(** ** The state of the bridge *)

Inductive level : Type := INFO | ERROR.

(** A record emitted through [logger.info] or [logger.error]. *)
Definition log_record : Type := (level * string)%type.

(** The attributes of an [MCPHTTPBridge] that its request handler reads and
    writes, and the records the loggers of the two modules have emitted while
    it ran. The [transport] attribute holds a handler over this very state and
    is kept beside it, in [Program]. *)
Record MCPHTTPBridge : Type := mk_bridge {
  server_path : string;
  process : option Popen;
  log : list log_record
}.

(** [MCPHTTPBridge.__init__] *)
Definition MCPHTTPBridge_init (path : string) : MCPHTTPBridge :=
  mk_bridge path None [].

Definition set_process (self : MCPHTTPBridge) (p : option Popen) : MCPHTTPBridge :=
  mk_bridge (server_path self) p (log self).

Definition logger (l : level) (msg : string) : M MCPHTTPBridge unit :=
  modify (fun self =>
            mk_bridge (server_path self) (process self) (log self ++ [(l, msg)])%list).

(** A call on [self.process]; on [None] the attribute access raises. *)
Definition on_process {A} (m : M Popen A) : M MCPHTTPBridge A :=
  fun self =>
    match process self with
    | Some p => let (r, p') := m p in (r, set_process self (Some p'))
    | None =>
        (Raise (mk_exn AttributeError "'NoneType' object has no attribute"), self)
    end.

(** ** src/http_transport.py *)

Module HttpTransport.

Record HTTPTransportConfig : Type := mk_config {
  host : string;
  port : Z;
  cors_origins : option (list string)
}.

(** The dataclass constructor with its [__post_init__]. *)
Definition HTTPTransportConfig_init (h : string) (p : Z)
    (origins : option (list string)) : HTTPTransportConfig :=
  mk_config h p (match origins with
                 | None => Some ["*"]
                 | Some l => Some l
                 end).

(** An incoming request, as far as the routes look at it: what awaiting
    [request.json()] does. *)
Record Request : Type := mk_request {
  request_json : outcome Json
}.

(** The message handler: an awaitable callable from the body to the reply. *)
Definition Handler : Type := Json -> M MCPHTTPBridge Json.

Record HTTPTransport : Type := mk_transport {
  config : HTTPTransportConfig;
  mcp_handler : option Handler
}.

(** [HTTPTransport.__init__]: no handler yet. *)
Definition HTTPTransport_init (c : HTTPTransportConfig) : HTTPTransport :=
  mk_transport c None.

(** The arguments [_setup_middleware] gives the CORS middleware. *)
Record CORS : Type := mk_cors {
  allow_origins : list string;
  allow_credentials : bool;
  allow_methods : list string;
  allow_headers : list string
}.

Definition _setup_middleware (self : HTTPTransport) : CORS :=
  let origins :=
    match cors_origins (config self) with
    | Some (o :: l) => o :: l
    | _ => ["*"]
    end in
  mk_cors origins true ["GET"; "POST"; "OPTIONS"] ["*"].

(** [HTTPTransport.set_mcp_handler] *)
Definition set_mcp_handler (self : HTTPTransport) (handler : Handler)
  : HTTPTransport :=
  mk_transport (config self) (Some handler).

(** [POST /mcp] *)
Definition handle_jsonrpc (self : HTTPTransport) (request : Request)
  : M MCPHTTPBridge Json :=
  try_except_Exception
    (body <- (fun s => (request_json request, s)) ;;
     match mcp_handler self with
     | Some handler =>
         result <- handler body ;;
         ret result
     | None => ret (error_dict "MCP handler not configured")
     end)%py
    (fun e =>
       logger ERROR ("Error handling JSON-RPC request: " ++ str e) ;;
       ret (error_dict (str e)))%py.

(** [GET /health] *)
Definition health_check (self : HTTPTransport) : M MCPHTTPBridge Json :=
  ret (JDict [("status", JStr "healthy"); ("transport", JStr "http")]).

(** The [StreamingResponse] of [GET /mcp/stream], without its body: the body
    is the generator [event_stream], which yields a heartbeat and sleeps 30
    seconds, for ever. *)
Record StreamingResponse : Type := mk_streaming {
  media_type : string;
  headers : list (string * string)
}.

Definition handle_sse_stream (self : HTTPTransport) (request : Request)
  : M MCPHTTPBridge StreamingResponse :=
  ret (mk_streaming "text/event-stream"
         [("Cache-Control", "no-cache"); ("Connection", "keep-alive")]).

(** The routes that [_setup_routes] registers on the application. *)
Inductive http_method : Type := GET | POST | OPTIONS | OtherMethod.

Inductive response : Type :=
| JsonBody (v : Json)
| Stream (r : StreamingResponse)
| NoRoute.

Definition app (self : HTTPTransport) (m : http_method) (path : string)
    (request : Request) : M MCPHTTPBridge response :=
  match m with
  | POST =>
      if String.eqb path "/mcp"
      then (v <- handle_jsonrpc self request ;; ret (JsonBody v))%py
      else ret NoRoute
  | GET =>
      if String.eqb path "/mcp/stream"
      then (r <- handle_sse_stream self request ;; ret (Stream r))%py
      else if String.eqb path "/health"
      then (v <- health_check self ;; ret (JsonBody v))%py
      else ret NoRoute
  | _ => ret NoRoute
  end.

End HttpTransport.

Export HttpTransport.

(** ** src/http_server.py *)

Module HttpServer.

Section Bridge.

Context `{JsonLib}.

(** [MCPHTTPBridge.handle_mcp_request]. It holds no [await] between the
    write and the read, so one call runs to its end before the event loop
    starts another: concurrent requests are served one after the other. *)
Definition handle_mcp_request (request : Json) : M MCPHTTPBridge Json :=
  fun self =>
    match process self with
    | None => (Return (error_dict "MCP server not started"), self)
    | Some _ =>
        try_except_Exception
          (d <- lift (json_dumps request) ;;
           let request_json := d ++ backslash_n in
           on_process (stdin_write request_json) ;;
           on_process stdin_flush ;;
           response_line <- on_process stdout_readline ;;
           if truthy response_line
           then lift (json_loads (strip response_line))
           else ret (error_dict "No response from MCP server"))%py
          (fun e =>
             logger ERROR ("Error handling MCP request: " ++ str e) ;;
             ret (error_dict (str e)))%py
          self
    end.

(** Requests served one after the other, each by [handle_mcp_request]: what
    every caller got, in the order of service. *)
Fixpoint serve_all (requests : list Json) (self : MCPHTTPBridge)
  : list (outcome Json) * MCPHTTPBridge :=
  match requests with
  | [] => ([], self)
  | r :: rest =>
      let (o, self') := handle_mcp_request r self in
      let (os, self'') := serve_all rest self' in
      (o :: os, self'')
  end.

(** *** Startup and shutdown *)

(** What the operating system and the HTTP server do for the bridge:
    [popen argv] is the launch of [argv] with three pipes; [serve host port]
    tells whether the server got to accept connections on the address, and
    how [Server.serve] ended. *)
Record OS : Type := mk_os {
  popen : list string -> io_error + Popen;
  serve : string -> Z -> bool * outcome unit
}.

(** What can be seen from outside, in order. *)
Inductive event : Type :=
| Launched (argv : list string)
| Accepting (h : string) (p : Z)
| Stopped.

Record Program : Type := mk_program {
  bridge : MCPHTTPBridge;
  transport : option HTTPTransport;
  trace : list event
}.

Definition on_bridge {A} (m : M MCPHTTPBridge A) : M Program A :=
  fun s =>
    let (r, b) := m (bridge s) in
    (r, mk_program b (transport s) (trace s)).

Definition emit (e : event) : M Program unit :=
  modify (fun s => mk_program (bridge s) (transport s) (trace s ++ [e])%list).

Definition set_transport (t : HTTPTransport) : M Program unit :=
  modify (fun s => mk_program (bridge s) (Some t) (trace s)).

(** A call on [self.transport]; on [None] the attribute access raises. *)
Definition with_transport {A} (m : HTTPTransport -> M Program A) : M Program A :=
  fun s =>
    match transport s with
    | Some t => m t s
    | None =>
        (Raise (mk_exn AttributeError "'NoneType' object has no attribute"), s)
    end.

Variable os : OS.

(** [MCPHTTPBridge.start_mcp_server] *)
Definition start_mcp_server : M Program unit :=
  try_except_Exception
    (path <- gets (fun s => server_path (bridge s)) ;;
     p <- lift (match popen os ["node"; path] with
                | inl e => inl (exn_of_io e)
                | inr p => inr p
                end) ;;
     on_bridge (modify (fun self => set_process self (Some p))) ;;
     emit (Launched ["node"; path]) ;;
     on_bridge (logger INFO ("Started MCP server process: " ++ path)))%py
    (fun e =>
       on_bridge (logger ERROR ("Failed to start MCP server: " ++ str e)) ;;
       raise e)%py.

(** [HTTPTransport.start]: the server binds the address and serves. *)
Definition transport_start (self : HTTPTransport) : M Program unit :=
  let (accepted, ended) := serve os (host (config self)) (port (config self)) in
  ((if accepted
    then emit (Accepting (host (config self)) (port (config self)))
    else ret tt) ;;
   (fun s => (ended, s)))%py.

(** [MCPHTTPBridge.start_http_transport] *)
Definition start_http_transport (h : string) (p : Z) : M Program unit :=
  (let config := HTTPTransportConfig_init h p None in
   set_transport (HTTPTransport_init config) ;;
   with_transport (fun t => set_transport (set_mcp_handler t handle_mcp_request)) ;;
   on_bridge (logger INFO ("Starting HTTP transport on " ++ h ++ ":"
                             ++ string_of_Z p)) ;;
   with_transport transport_start)%py.

(** [MCPHTTPBridge.start] *)
Definition start (h : string) (p : Z) : M Program unit :=
  (start_mcp_server ;;
   start_http_transport h p)%py.

(** [MCPHTTPBridge.stop] *)
Definition stop : M Program unit :=
  fun s =>
    match process (bridge s) with
    | Some _ =>
        (on_bridge (on_process terminate) ;;
         on_bridge (on_process wait) ;;
         emit Stopped ;;
         on_bridge (logger INFO "MCP server process stopped"))%py s
    | None => (Return tt, s)
    end.

(** [main], after the arguments are parsed. *)
Definition main (h : string) (p : Z) (server : string) : outcome unit * Program :=
  try_finally
    (try_except_KeyboardInterrupt
       (start h p)
       (on_bridge (logger INFO "Shutting down...")))
    stop
    (mk_program (MCPHTTPBridge_init server) None []).

End Bridge.

End HttpServer.

Export HttpServer.

(** ** Sample data *)

(** The request [{"id": n, "method": "ping"}], the reply
    [{"id": n, "result": n}] and the line that carries a value on the
    subprocess's standard output. *)
Definition req (n : Z) : Json := JDict [("id", JInt n); ("method", JStr "ping")].

Definition reply (n : Z) : Json := JDict [("id", JInt n); ("result", JInt n)].

Definition reply_line (v : Json) : string := PyJson.py_dumps v ++ newline.

(** A bridge whose subprocess has been launched, with [out] on its standard
    output. *)
Definition running (out : string) (e : stream_end) : MCPHTTPBridge :=
  mk_bridge "../build/index.js"
    (Some (fresh ["node"; "../build/index.js"] out e)) [].

(** ** What the statements speak of *)

Fixpoint has_newline (s : string) : bool :=
  match s with
  | EmptyString => false
  | String c rest => Ascii.eqb c ch_newline || has_newline rest
  end.

(** The text that [readline] returns on the standard output of [p], when it
    returns. *)
Definition next_line (p : Popen) : option string :=
  match take_line (stdout_text p) with
  | Some (line, _) => Some line
  | None =>
      match stdout_end p with
      | AtEOF => Some (stdout_text p)
      | _ => None
      end
  end.

(** [v] is the reply on the pipe, decoded: the next line of the standard
    output is not empty and [json.loads] of it, stripped, is [v]. *)
Definition is_reply `{JsonLib} (self : MCPHTTPBridge) (v : Json) : Prop :=
  exists p line,
    process self = Some p /\ next_line p = Some line
    /\ truthy line = true /\ json_loads (strip line) = inr v.

(** The text of the given lines, each closed by a newline. *)
Fixpoint lines_text (lines : list string) : string :=
  match lines with
  | [] => EmptyString
  | l :: rest => l ++ newline ++ lines_text rest
  end.

(** The subprocess after a request [d] was written and flushed on healthy
    pipes and a line was read, [rest] being left. *)
Definition after_round_trip (p : Popen) (d rest : string) : Popen :=
  mk_Popen (args p) None None EmptyString
    (stdin_sent p ++ stdin_buffer p ++ d ++ backslash_n)
    rest (stdout_end p) (signalled p) (wait_fault p).

(** [v] is a dictionary [{"error": msg}]. *)
Definition is_error_object (v : Json) : Prop :=
  exists msg, v = error_dict msg.

(** One of the three calls on the pipes of [p] blocks. *)
Definition blocks (p : Popen) : bool :=
  match stdin_write_fault p, stdin_flush_fault p with
  | Some Blocks, _ => true
  | _, Some Blocks => true
  | _, _ =>
      match take_line (stdout_text p), stdout_end p with
      | None, Waiting => true
      | _, _ => false
      end
  end.

(** What a caller gets from a line that is not empty. *)
Definition decoded `{JsonLib} (line : string) : outcome Json :=
  match json_loads (strip line) with
  | inr v => Return v
  | inl e => Return (error_dict (str e))
  end.

(** The caller of [request] got a value that carries the id of the
    request. *)
Definition answers (request : Json) (o : outcome Json) : Prop :=
  exists v i,
    o = Return v /\ get_key "id" request = Some i /\ get_key "id" v = Some i.

(** The body of [GET /health]. *)
Definition healthy : Json :=
  JDict [("status", JStr "healthy"); ("transport", JStr "http")].

(** ** The heartbeat generator of [GET /mcp/stream]

    [event_stream] is an asynchronous generator. It is modelled by what it
    does each time it is resumed: it stands at its start, at its [yield], at
    its [await asyncio.sleep(30)], or it has finished, and it is resumed
    either normally or by an exception thrown in at the point where it
    stands. *)

Module EventStream.

Inductive gen_state : Type :=
| NotStarted
| AtYield
| AtSleep
| Finished.

(** [Resume clock]: the consumer asks for the next item, or the sleep is
    over; [clock] is the reading of the loop's clock, as the JSON value it is
    serialized as, which the body uses when it starts a turn of the loop.
    [Throw e]: [e] is raised at the point of suspension. *)
Inductive gen_input : Type :=
| Resume (clock : Json)
| Throw (e : exn).

Inductive gen_output : Type :=
| Yield (chunk : string)      (* an item for the consumer *)
| Await (seconds : Z)         (* suspended in [asyncio.sleep] *)
| StopAsyncIteration          (* the generator returned *)
| Propagate (e : exn).        (* the generator raised *)

(** [isinstance(e, asyncio.CancelledError)] *)
Definition is_CancelledError (e : exn) : bool :=
  match exn_cls e with
  | CancelledError => true
  | _ => false
  end.

Section Generator.

Context `{JsonLib}.

(** The text of one event: [f"data: {data}\n\n"]. *)
Definition heartbeat (clock : Json) : exn + string :=
  match json_dumps (JDict [("type", JStr "heartbeat"); ("timestamp", clock)]) with
  | inl e => inl e
  | inr data => inr ("data: " ++ data ++ newline ++ newline)
  end.

(** [except asyncio.CancelledError: return], around the whole loop. *)
Definition except_CancelledError (e : exn) : gen_output * gen_state :=
  if is_CancelledError e then (StopAsyncIteration, Finished)
  else (Propagate e, Finished).

(** A turn of the loop, up to its [yield]. *)
Definition loop_head (clock : Json) : gen_output * gen_state :=
  match heartbeat clock with
  | inl e => except_CancelledError e
  | inr chunk => (Yield chunk, AtYield)
  end.

Definition event_stream (st : gen_state) (i : gen_input)
  : gen_output * gen_state :=
  match st, i with
  | NotStarted, Resume clock => loop_head clock
  | NotStarted, Throw e => (Propagate e, Finished)
  | AtYield, Resume _ => (Await 30, AtSleep)
  | AtYield, Throw e => except_CancelledError e
  | AtSleep, Resume clock => loop_head clock
  | AtSleep, Throw e => except_CancelledError e
  | Finished, _ => (StopAsyncIteration, Finished)
  end.

(** The generator resumed again and again: what it gave each time. *)
Fixpoint event_stream_run (st : gen_state) (inputs : list gen_input)
  : list gen_output * gen_state :=
  match inputs with
  | [] => ([], st)
  | i :: rest =>
      let (o, st') := event_stream st i in
      let (os, st'') := event_stream_run st' rest in
      (o :: os, st'')
  end.

End Generator.

(** The generator is suspended inside its [try]. *)
Definition suspended (st : gen_state) : bool :=
  match st with
  | AtYield | AtSleep => true
  | _ => false
  end.

End EventStream.

Export EventStream.

(** ** More of what the statements speak of *)

(** The requests [ds], serialized, as the handler writes them one after the
    other. *)
Fixpoint frames (ds : list string) : string :=
  match ds with
  | [] => EmptyString
  | d :: rest => d ++ backslash_n ++ frames rest
  end.

(** The request cannot be sent to [p]: its serialization raises [e], or the
    write or the flush on the standard input does. *)
Definition send_fails `{JsonLib} (request : Json) (p : Popen) (e : exn) : Prop :=
  json_dumps request = inl e
  \/ (exists d io,
        json_dumps request = inr d /\ e = exn_of_io io
        /\ (stdin_write_fault p = Some (Fails io)
            \/ (stdin_write_fault p = None
                /\ stdin_flush_fault p = Some (Fails io)))).

(** The dictionary that a heartbeat serializes. *)
Definition heartbeat_dict (clock : Json) : Json :=
  JDict [("type", JStr "heartbeat"); ("timestamp", clock)].

(** The generator stands where a turn of its loop begins. *)
Definition at_loop_head (st : gen_state) : bool :=
  match st with
  | NotStarted | AtSleep => true
  | _ => false
  end.

(** [self] with one more record in its log. *)
Definition logged (self : MCPHTTPBridge) (l : level) (msg : string)
  : MCPHTTPBridge :=
  mk_bridge (server_path self) (process self) (log self ++ [(l, msg)])%list.

(** ** The event loop

    The server runs the routes on one event loop. A route gives the loop
    back where it awaits: [handle_jsonrpc] does so while the body of its
    request is read, and nowhere else when the handler is
    [handle_mcp_request], which holds no [await]. So the calls are served
    one after the other, a call whose body never arrives waits aside, and
    while a handler is blocked in a call that does not return, nothing else
    is served. *)






(** * Properties *)

(** ** The reference instance is a JSON library

    [py_loads] raises [JSONDecodeError] or [RecursionError] only, and
    [py_dumps] does not raise. *)

Lemma py_loads_raises (s : string) (e : exn) :
  PyJson.py_loads s = inl e -> is_Exception e = true.
Proof.
  unfold PyJson.py_loads, PyJson.decode_error.
  destruct (PyJson.parse_value _ _) as [err | [v rest]].
  - destruct (String.eqb _ _).
    + intros H; inversion H; reflexivity.
    + destruct (PyJson.line_col _ _ _ _); intros H; inversion H; reflexivity.
  - destruct (PyJson.skip_ws rest).
    + discriminate.
    + destruct (PyJson.line_col _ _ _ _); intros H; inversion H; reflexivity.
Qed.

Lemma py_dumps_raises (v : Json) (e : exn) :
  @inr exn string (PyJson.py_dumps v) = inl e -> is_Exception e = true.
Proof. discriminate. Qed.

#[export] Instance py_json : JsonLib := {|
  json_dumps := fun v => inr (PyJson.py_dumps v);
  json_loads := PyJson.py_loads;
  json_dumps_raises := py_dumps_raises;
  json_loads_raises := py_loads_raises
|}.

(** ** The handlers, step by step *)

(** Opens the handler on a bridge whose subprocess is known ([Hp]) and whose
    request serializes ([Hd]), down to the calls on the pipes. *)
Ltac open_handler Hp Hd :=
  unfold handle_mcp_request; rewrite Hp;
  unfold try_except_Exception, bind, lift; rewrite Hd;
  unfold on_process, stdin_write, stdin_flush, stdout_readline;
  try rewrite Hp.

Lemma exn_of_io_is_Exception (e : io_error) : is_Exception (exn_of_io e) = true.
Proof. destruct e; reflexivity. Qed.

Section Handlers.

Context `{JsonLib}.

Lemma handle_mcp_request_no_process (request : Json) (self : MCPHTTPBridge) :
  process self = None ->
  handle_mcp_request request self
  = (Return (error_dict "MCP server not started"), self).
Proof.
  intros Hp. unfold handle_mcp_request. rewrite Hp. reflexivity.
Qed.

Lemma handle_mcp_request_outcome (request : Json) (self : MCPHTTPBridge)
    (p : Popen) :
  process self = Some p ->
  match fst (handle_mcp_request request self) with
  | Return v => is_reply self v \/ is_error_object v
  | Raise _ => False
  | Hang => blocks p = true
  end.
Proof.
  intros Hp. unfold handle_mcp_request. rewrite Hp.
  unfold try_except_Exception, bind, lift.
  destruct (json_dumps request) as [e | d] eqn:Hd.
  - rewrite (json_dumps_raises _ _ Hd). simpl. right. eexists. reflexivity.
  - unfold on_process at 1. rewrite Hp. unfold stdin_write.
    destruct (stdin_write_fault p) as [[e | ] | ] eqn:Hw; simpl.
    + rewrite exn_of_io_is_Exception. simpl. right. eexists. reflexivity.
    + unfold blocks. rewrite Hw. reflexivity.
    + unfold on_process, stdin_flush; simpl.
      destruct (stdin_flush_fault p) as [[e | ] | ] eqn:Hf; simpl.
      * rewrite exn_of_io_is_Exception. simpl. right. eexists. reflexivity.
      * unfold blocks. rewrite Hw, Hf. reflexivity.
      * unfold stdout_readline; simpl.
        destruct (take_line (stdout_text p)) as [[line rest] | ] eqn:Ht; simpl.
        -- destruct (truthy line) eqn:Hl; simpl.
           ++ destruct (json_loads (strip line)) as [e | v] eqn:Hj; simpl.
              ** rewrite (json_loads_raises _ _ Hj). simpl.
                 right. eexists. reflexivity.
              ** left. exists p, line. unfold next_line. rewrite Ht. auto.
           ++ right. eexists. reflexivity.
        -- destruct (stdout_end p) as [ | | e] eqn:He; simpl.
           ++ destruct (truthy (stdout_text p)) eqn:Hl; simpl.
              ** destruct (json_loads (strip (stdout_text p))) as [e | v] eqn:Hj;
                   simpl.
                 --- rewrite (json_loads_raises _ _ Hj). simpl.
                     right. eexists. reflexivity.
                 --- left. exists p, (stdout_text p). unfold next_line.
                     rewrite Ht, He. auto.
              ** right. eexists. reflexivity.
           ++ unfold blocks. rewrite Hw, Hf, Ht, He. reflexivity.
           ++ rewrite exn_of_io_is_Exception. simpl. right. eexists. reflexivity.
Qed.

(** Without a blocking pipe the handler returns. *)
Lemma handle_mcp_request_returns (request : Json) (self : MCPHTTPBridge) :
  (forall p, process self = Some p -> blocks p = false) ->
  exists v,
    fst (handle_mcp_request request self) = Return v
    /\ (is_reply self v \/ is_error_object v).
Proof.
  intros Hb. destruct (process self) as [p | ] eqn:Hp.
  - pose proof (handle_mcp_request_outcome request self p Hp) as Ho.
    destruct (fst (handle_mcp_request request self)) as [v | e | ].
    + exists v. split; [reflexivity | exact Ho].
    + contradiction.
    + rewrite (Hb p eq_refl) in Ho. discriminate.
  - rewrite (handle_mcp_request_no_process request self Hp). simpl.
    eexists. split; [reflexivity | right; eexists; reflexivity].
Qed.

(** *** Reading lines *)

Lemma append_assoc (a b c : string) : (a ++ b) ++ c = a ++ b ++ c.
Proof. induction a as [ | x a IH]; simpl; [reflexivity | now rewrite IH]. Qed.

Lemma take_line_app (l rest : string) :
  has_newline l = false ->
  take_line (l ++ newline ++ rest) = Some (l ++ newline, rest).
Proof.
  unfold newline.
  induction l as [ | c l IH]; simpl; intros Hn.
  - reflexivity.
  - apply orb_false_iff in Hn. destruct Hn as [Hc Hl].
    rewrite Hc. simpl in IH. rewrite (IH Hl). reflexivity.
Qed.

Lemma take_line_truthy (s line rest : string) :
  take_line s = Some (line, rest) -> truthy line = true.
Proof.
  destruct s as [ | c s]; simpl; [discriminate | ].
  destruct (Ascii.eqb c ch_newline).
  - intros E; inversion E; reflexivity.
  - destruct (take_line s) as [[l r] | ]; intros E; inversion E; reflexivity.
Qed.

(** *** One round trip on healthy pipes *)

Lemma handle_mcp_request_round_trip (request : Json) (path : string)
    (p : Popen) (lg : list log_record) (d line rest : string) :
  json_dumps request = inr d ->
  stdin_write_fault p = None ->
  stdin_flush_fault p = None ->
  take_line (stdout_text p) = Some (line, rest) ->
  exists lg',
    handle_mcp_request request (mk_bridge path (Some p) lg)
    = (decoded line, mk_bridge path (Some (after_round_trip p d rest)) lg').
Proof.
  intros Hd Hw Hf Ht.
  pose proof (take_line_truthy _ _ _ Ht) as Hl.
  unfold handle_mcp_request, decoded, after_round_trip. simpl.
  unfold try_except_Exception, bind, lift. rewrite Hd.
  unfold on_process, stdin_write, stdin_flush, stdout_readline. simpl.
  rewrite Hw. simpl. rewrite Hf. simpl. rewrite Ht. simpl. rewrite Hl.
  destruct (json_loads (strip line)) as [e | v] eqn:Hj; simpl.
  - rewrite (json_loads_raises _ _ Hj). simpl. eexists. reflexivity.
  - eexists. reflexivity.
Qed.

(** What was written reaches the subprocess whatever the read does. *)
Lemma handle_mcp_request_writes (request : Json) (self : MCPHTTPBridge)
    (p : Popen) (d : string) :
  process self = Some p ->
  json_dumps request = inr d ->
  stdin_write_fault p = None ->
  stdin_flush_fault p = None ->
  exists p',
    process (snd (handle_mcp_request request self)) = Some p'
    /\ stdin_sent p' = stdin_sent p ++ stdin_buffer p ++ d ++ backslash_n.
Proof.
  intros Hp Hd Hw Hf.
  open_handler Hp Hd.
  rewrite Hw. simpl. rewrite Hf. simpl.
  destruct (take_line (stdout_text p)) as [[line rest] | ]; simpl.
  - destruct (truthy line); simpl.
    + destruct (json_loads (strip line)) as [e | v]; simpl.
      * destruct (is_Exception e); simpl; eexists; split; reflexivity.
      * eexists; split; reflexivity.
    + eexists; split; reflexivity.
  - destruct (stdout_end p); simpl.
    + destruct (truthy (stdout_text p)); simpl.
      * destruct (json_loads (strip (stdout_text p))) as [e | v]; simpl.
        -- destruct (is_Exception e); simpl; eexists; split; reflexivity.
        -- eexists; split; reflexivity.
      * eexists; split; reflexivity.
    + eexists; split; reflexivity.
    + rewrite exn_of_io_is_Exception. simpl. eexists; split; reflexivity.
Qed.

(** Requests served in a row take the lines of the standard output in the
    order in which the subprocess wrote them. *)
Lemma serve_all_in_order (requests : list Json) :
  forall (lines : list string) (path : string) (p : Popen)
         (lg : list log_record) (rest : string),
    length lines = length requests ->
    Forall (fun r => exists d, json_dumps r = inr d) requests ->
    Forall (fun l => has_newline l = false) lines ->
    stdin_write_fault p = None ->
    stdin_flush_fault p = None ->
    stdout_text p = lines_text lines ++ rest ->
    fst (serve_all requests (mk_bridge path (Some p) lg))
    = map (fun l => decoded (l ++ newline)) lines.
Proof.
  induction requests as [ | r requests IH];
    intros lines path p lg rest Hlen Hr Hl Hw Hf Hout.
  - destruct lines; [reflexivity | discriminate].
  - destruct lines as [ | l lines]; [discriminate | ].
    inversion Hr as [ | ? ? [d Hd] Hr']; subst.
    inversion Hl as [ | ? ? Hn Hl']; subst.
    simpl in Hout.
    assert (Ht : take_line (stdout_text p)
                 = Some (l ++ newline, lines_text lines ++ rest)).
    { rewrite Hout, !append_assoc. apply take_line_app. exact Hn. }
    destruct (handle_mcp_request_round_trip r path p lg d _ _ Hd Hw Hf Ht)
      as [lg' Hstep].
    simpl. rewrite Hstep.
    specialize (IH lines path (after_round_trip p d (lines_text lines ++ rest))
                   lg' rest).
    destruct (serve_all requests _) as [os self''] eqn:Hs.
    simpl in *. f_equal. apply IH; auto.
Qed.

End Handlers.

Lemma backslash_n_is_not_newline (d : string) :
  d ++ backslash_n <> d ++ newline.
Proof.
  induction d as [ | c d IH]; simpl.
  - discriminate.
  - intros E. inversion E. contradiction.
Qed.

(** ** Startup *)

Lemma start_launch_fails `{JsonLib} (os : OS) (h : string) (p : Z)
    (s : Program) (e : io_error) :
  popen os ["node"; server_path (bridge s)] = inl e ->
  fst (start os h p s) = Raise (exn_of_io e)
  /\ trace (snd (start os h p s)) = trace s
  /\ transport (snd (start os h p s)) = transport s
  /\ process (bridge (snd (start os h p s))) = process (bridge s).
Proof.
  intros He.
  unfold start, start_mcp_server.
  unfold try_except_Exception, bind, gets, lift, on_bridge, logger, modify, raise.
  simpl. rewrite He. simpl. rewrite exn_of_io_is_Exception. simpl. auto.
Qed.

Lemma start_launch_succeeds `{JsonLib} (os : OS) (h : string) (p : Z)
    (s : Program) (proc : Popen) :
  popen os ["node"; server_path (bridge s)] = inr proc ->
  fst (start os h p s) = snd (serve os h p)
  /\ process (bridge (snd (start os h p s))) = Some proc
  /\ trace (snd (start os h p s))
     = (trace s ++ Launched ["node"; server_path (bridge s)]
          :: (if fst (serve os h p) then [Accepting h p] else []))%list.
Proof.
  intros He.
  unfold start, start_mcp_server, start_http_transport, transport_start.
  unfold try_except_Exception, bind, gets, lift, on_bridge, emit, modify,
    with_transport, set_transport, logger, raise, ret.
  simpl. rewrite He. simpl.
  destruct (serve os h p) as [[ | ] [[] | e | ]]; simpl;
    rewrite <- ?app_assoc; auto.
Qed.

(** When the launch fails, [main] ends with the error of the launch, and
    nothing was ever accepted. *)
Lemma main_aborts_when_launch_fails `{JsonLib} (os : OS) (h : string) (p : Z)
    (server : string) (e : io_error) :
  popen os ["node"; server] = inl e ->
  fst (main os h p server) = Raise (exn_of_io e)
  /\ trace (snd (main os h p server)) = [].
Proof.
  intros He.
  destruct (start_launch_fails os h p
              (mk_program (MCPHTTPBridge_init server) None []) e He)
    as [Hr [Ht [_ Hp]]].
  unfold main, try_finally, try_except_KeyboardInterrupt.
  destruct (start os h p _) as [r s'] eqn:Hstart. simpl in *. subst r.
  assert (Hk : is_KeyboardInterrupt (exn_of_io e) = false)
    by (destruct e; reflexivity).
  rewrite Hk. unfold stop. rewrite Hp. simpl. auto.
Qed.

(** * The claims *)

(** ** C1: replies and the requests they belong to *)

(** C1, as stated, fails: with the requests of ids 1 and 2 outstanding and
    the subprocess writing the reply to 2 before the reply to 1, the caller
    of request 1 receives the reply of id 2 and the caller of request 2 the
    reply of id 1. *)
Lemma C1_replies_out_of_order_are_crossed :
  let self := running (reply_line (reply 2) ++ reply_line (reply 1)) Waiting in
  fst (serve_all [req 1; req 2] self) = [Return (reply 2); Return (reply 1)]
  /\ ~ answers (req 1) (Return (reply 2))
  /\ ~ answers (req 2) (Return (reply 1)).
Proof.
  split; [vm_compute; reflexivity | ].
  split; intros [v [i [E [Hr Hv]]]]; inversion E; subst v;
    vm_compute in Hr, Hv; congruence.
Qed.

(** C1, amended: requests are served one at a time and each caller receives
    the next line of the subprocess's standard output, decoded, whatever id
    it carries. Of two outstanding requests the one served first gets the
    line written first and the other the line written second; so when the
    subprocess writes the two replies in the order in which the requests
    were served, each caller receives the reply whose id matches its own
    request. *)
Theorem C1_replies_follow_the_order_of_service `{JsonLib}
    (r1 r2 a1 a2 i1 i2 : Json) (l1 l2 rest path : string) (p : Popen)
    (lg : list log_record) :
  (exists d, json_dumps r1 = inr d) ->
  (exists d, json_dumps r2 = inr d) ->
  stdin_write_fault p = None ->
  stdin_flush_fault p = None ->
  has_newline l1 = false ->
  has_newline l2 = false ->
  stdout_text p = l1 ++ newline ++ l2 ++ newline ++ rest ->
  json_loads (strip (l1 ++ newline)) = inr a1 ->
  json_loads (strip (l2 ++ newline)) = inr a2 ->
  get_key "id" r1 = Some i1 -> get_key "id" a1 = Some i1 ->
  get_key "id" r2 = Some i2 -> get_key "id" a2 = Some i2 ->
  fst (serve_all [r1; r2] (mk_bridge path (Some p) lg)) = [Return a1; Return a2]
  /\ answers r1 (Return a1)
  /\ answers r2 (Return a2).
Proof.
  intros Hd1 Hd2 Hw Hf Hn1 Hn2 Hout Ha1 Ha2 Hr1 Hi1 Hr2 Hi2.
  split.
  - rewrite (serve_all_in_order [r1; r2] [l1; l2] path p lg rest);
      auto.
    + simpl. unfold decoded. rewrite Ha1, Ha2. reflexivity.
    + rewrite Hout. cbn [lines_text]. rewrite !append_assoc. reflexivity.
  - split; [exists a1, i1 | exists a2, i2]; auto.
Qed.

Lemma C1_replies_follow_the_order_of_service_witness :
  fst (serve_all [req 1; req 2]
         (mk_bridge "../build/index.js"
            (Some (fresh ["node"; "../build/index.js"]
                     (reply_line (reply 1) ++ reply_line (reply 2)) Waiting))
            []))
  = [Return (reply 1); Return (reply 2)]
  /\ answers (req 1) (Return (reply 1))
  /\ answers (req 2) (Return (reply 2)).
Proof.
  apply (C1_replies_follow_the_order_of_service
           (req 1) (req 2) (reply 1) (reply 2) (JInt 1) (JInt 2)
           (PyJson.py_dumps (reply 1)) (PyJson.py_dumps (reply 2)) EmptyString);
    try reflexivity; eexists; reflexivity.
Defined.

(** ** C2: the line written to the subprocess *)

(** C2, on the code: the text that reaches the standard input of the
    subprocess for a request is its JSON serialization followed by a
    backslash and the letter n, which is not the serialization followed by a
    newline character. *)
Theorem C2_request_is_closed_by_backslash_n `{JsonLib}
    (request : Json) (self : MCPHTTPBridge) (p : Popen) (d : string) :
  process self = Some p ->
  json_dumps request = inr d ->
  stdin_write_fault p = None ->
  stdin_flush_fault p = None ->
  exists p',
    process (snd (handle_mcp_request request self)) = Some p'
    /\ stdin_sent p' = stdin_sent p ++ stdin_buffer p ++ d ++ backslash_n
    /\ d ++ backslash_n <> d ++ newline.
Proof.
  intros Hp Hd Hw Hf.
  destruct (handle_mcp_request_writes request self p d Hp Hd Hw Hf)
    as [p' [Hp' Hs]].
  exists p'. repeat split; auto. apply backslash_n_is_not_newline.
Qed.

Lemma C2_request_is_closed_by_backslash_n_witness :
  exists p',
    process (snd (handle_mcp_request (req 1) (running EmptyString AtEOF)))
    = Some p'
    /\ stdin_sent p' = PyJson.py_dumps (req 1) ++ backslash_n
    /\ PyJson.py_dumps (req 1) ++ backslash_n
       <> PyJson.py_dumps (req 1) ++ newline.
Proof.
  apply (C2_request_is_closed_by_backslash_n
           (req 1) (running EmptyString AtEOF)
           (fresh ["node"; "../build/index.js"] EmptyString AtEOF)
           (PyJson.py_dumps (req 1)));
    reflexivity.
Defined.

(** ** C3: completion *)

(** C3, as stated, fails: the handler has no timeout. With the subprocess
    running, the request written and no line coming on a standard output
    that stays open, the call neither returns nor raises. *)
Lemma C3_silent_subprocess_blocks_the_request :
  fst (handle_mcp_request (req 1) (running EmptyString Waiting)) = Hang.
Proof. vm_compute. reflexivity. Qed.

(** C3, amended: a unary request completes, yielding either the decoded
    reply or a JSON error object, whenever no call on the pipes of the
    subprocess blocks. There is no timeout: when the request is written and
    no line arrives on a standard output that stays open, the request does
    not complete. *)
Theorem C3_request_completes_unless_a_pipe_blocks `{JsonLib}
    (request : Json) (self : MCPHTTPBridge) :
  ((forall p, process self = Some p -> blocks p = false) ->
   exists v,
     fst (handle_mcp_request request self) = Return v
     /\ (is_reply self v \/ is_error_object v))
  /\ (forall p d,
        process self = Some p ->
        json_dumps request = inr d ->
        stdin_write_fault p = None ->
        stdin_flush_fault p = None ->
        take_line (stdout_text p) = None ->
        stdout_end p = Waiting ->
        fst (handle_mcp_request request self) = Hang).
Proof.
  split.
  - apply handle_mcp_request_returns.
  - intros p d Hp Hd Hw Hf Ht He.
    unfold handle_mcp_request. rewrite Hp.
    unfold try_except_Exception, bind, lift. rewrite Hd.
    unfold on_process, stdin_write, stdin_flush, stdout_readline. rewrite Hp.
    rewrite Hw. simpl. rewrite Hf. simpl. rewrite Ht, He. reflexivity.
Qed.

Lemma C3_request_completes_unless_a_pipe_blocks_witness :
  exists v,
    fst (handle_mcp_request (req 1) (running (reply_line (reply 1)) Waiting))
    = Return v
    /\ (is_reply (running (reply_line (reply 1)) Waiting) v
        \/ is_error_object v).
Proof.
  apply (proj1 (C3_request_completes_unless_a_pipe_blocks
                  (req 1) (running (reply_line (reply 1)) Waiting))).
  intros p Hp. inversion Hp. reflexivity.
Defined.

(** ** C4: no subprocess *)

(** C4, as stated, fails on the text of the message: the payload is
    [{"error": "MCP server not started"}], which is not
    [{"error": "mcp server not started"}]. *)
Lemma C4_message_is_not_in_lower_case :
  fst (handle_mcp_request (req 1) (MCPHTTPBridge_init "../build/index.js"))
  = Return (error_dict "MCP server not started")
  /\ fst (handle_mcp_request (req 1) (MCPHTTPBridge_init "../build/index.js"))
     <> Return (error_dict "mcp server not started").
Proof. split; vm_compute; [reflexivity | discriminate]. Qed.

(** C4, amended: for every request submitted via POST /mcp while no
    subprocess has been started, the handler returns the error payload
    [{"error": "MCP server not started"}] and does not hang; the state of the
    bridge is left as it was. *)
Theorem C4_request_without_subprocess `{JsonLib}
    (t : HTTPTransport) (request : Request) (body : Json)
    (self : MCPHTTPBridge) :
  process self = None ->
  mcp_handler t = Some handle_mcp_request ->
  request_json request = Return body ->
  handle_mcp_request body self
  = (Return (error_dict "MCP server not started"), self)
  /\ app t POST "/mcp" request self
     = (Return (JsonBody (error_dict "MCP server not started")), self).
Proof.
  intros Hp Hh Hb.
  pose proof (handle_mcp_request_no_process body self Hp) as Hn.
  split; [exact Hn | ].
  unfold app, handle_jsonrpc, try_except_Exception, bind, ret. simpl.
  rewrite Hb, Hh, Hn. reflexivity.
Qed.

Lemma C4_request_without_subprocess_witness :
  let t := set_mcp_handler
             (HTTPTransport_init (HTTPTransportConfig_init "0.0.0.0" 8080 None))
             handle_mcp_request in
  let self := MCPHTTPBridge_init "../build/index.js" in
  handle_mcp_request (req 1) self
  = (Return (error_dict "MCP server not started"), self)
  /\ app t POST "/mcp" (mk_request (Return (req 1))) self
     = (Return (JsonBody (error_dict "MCP server not started")), self).
Proof.
  intros t self.
  apply (C4_request_without_subprocess t (mk_request (Return (req 1)))
           (req 1) self);
    reflexivity.
Defined.

(** ** C5: a subprocess that has gone *)

(** C5, as stated, fails on the text of the message: with the standard
    output closed and no reply line, the payload is
    [{"error": "No response from MCP server"}], which is not
    [{"error": "mcp server not running"}]. *)
Lemma C5_closed_stdout_gives_no_response_message :
  fst (handle_mcp_request (req 1) (running EmptyString AtEOF))
  = Return (error_dict "No response from MCP server")
  /\ fst (handle_mcp_request (req 1) (running EmptyString AtEOF))
     <> Return (error_dict "mcp server not running").
Proof. split; vm_compute; [reflexivity | discriminate]. Qed.

(** C5, amended: when the subprocess has crashed (its standard output is
    closed and holds no reply line for the pending request), the handler
    returns [{"error": "No response from MCP server"}] for that request if
    the request could be written to the standard input, and
    [{"error": str(e)}] if the write or the flush raised [e]. *)
Theorem C5_request_to_a_crashed_subprocess `{JsonLib}
    (request : Json) (self : MCPHTTPBridge) (p : Popen) (d : string) :
  process self = Some p ->
  stdout_text p = EmptyString ->
  stdout_end p = AtEOF ->
  json_dumps request = inr d ->
  (stdin_write_fault p = None -> stdin_flush_fault p = None ->
   fst (handle_mcp_request request self)
   = Return (error_dict "No response from MCP server"))
  /\ (forall e, stdin_write_fault p = Some (Fails e) ->
        fst (handle_mcp_request request self)
        = Return (error_dict (str (exn_of_io e))))
  /\ (forall e, stdin_write_fault p = None ->
        stdin_flush_fault p = Some (Fails e) ->
        fst (handle_mcp_request request self)
        = Return (error_dict (str (exn_of_io e)))).
Proof.
  intros Hp Ht He Hd.
  open_handler Hp Hd.
  repeat split.
  - intros Hw Hf. rewrite Hw. simpl. rewrite Hf. simpl.
    rewrite Ht, He. reflexivity.
  - intros e Hw. rewrite Hw. simpl.
    rewrite exn_of_io_is_Exception. reflexivity.
  - intros e Hw Hf. rewrite Hw. simpl. rewrite Hf. simpl.
    rewrite exn_of_io_is_Exception. reflexivity.
Qed.

Lemma C5_request_to_a_crashed_subprocess_witness :
  fst (handle_mcp_request (req 1) (running EmptyString AtEOF))
  = Return (error_dict "No response from MCP server").
Proof.
  refine (proj1 (@C5_request_to_a_crashed_subprocess py_json
                   (req 1) (running EmptyString AtEOF)
                   (fresh ["node"; "../build/index.js"] EmptyString AtEOF)
                   (PyJson.py_dumps (req 1)) _ _ _ _) _ _);
    reflexivity.
Defined.

(** ** C6: the health check *)

(** The handler of GET /health, when it runs, returns the same dictionary
    for every transport, request and state of the bridge, and leaves the
    state as it was. *)
Lemma health_check_is_constant
    (t : HTTPTransport) (request : Request) (self : MCPHTTPBridge) :
  app t GET "/health" request self = (Return (JsonBody healthy), self)
  /\ health_check t self = (Return healthy, self).
Proof. split; reflexivity. Qed.







(** ** C8: the order of startup *)

(** C8: during [start], the launch of the subprocess is over before the HTTP
    transport accepts anything. When the launch fails, [start] raises the
    error of the launch, the transport is never created and nothing is
    accepted, and [main] ends with that error; when it succeeds, the
    subprocess is in place and its launch comes before the acceptance of
    connections, which is the only other thing [start] adds to what can be
    seen. *)
Theorem C8_launch_is_over_before_accepting `{JsonLib}
    (os : OS) (h : string) (p : Z) (s : Program) :
  let argv := ["node"; server_path (bridge s)] in
  match popen os argv with
  | inl e =>
      fst (start os h p s) = Raise (exn_of_io e)
      /\ trace (snd (start os h p s)) = trace s
      /\ transport (snd (start os h p s)) = transport s
      /\ fst (main os h p (server_path (bridge s))) = Raise (exn_of_io e)
      /\ trace (snd (main os h p (server_path (bridge s)))) = []
  | inr proc =>
      fst (start os h p s) = snd (serve os h p)
      /\ process (bridge (snd (start os h p s))) = Some proc
      /\ trace (snd (start os h p s))
         = (trace s ++ Launched argv
              :: (if fst (serve os h p) then [Accepting h p] else []))%list
  end.
Proof.
  intros argv. subst argv.
  destruct (popen os _) as [e | proc] eqn:He.
  - destruct (start_launch_fails os h p s e He) as [Hr [Ht [Htr _]]].
    destruct (main_aborts_when_launch_fails os h p _ e He) as [Hm Hmt].
    auto.
  - apply (start_launch_succeeds os h p s proc He).
Qed.

(** ** C9: no handler *)

(** C9, as stated, fails: the body is read before the handler is looked
    at. A POST /mcp request whose body is not JSON, arriving before any
    handler has been set, is answered with the decoder's message and not with
    ["MCP handler not configured"]; one cancelled while its body is read
    raises. *)
Lemma C9_body_is_read_before_the_handler_is_tested :
  let t := HTTPTransport_init (HTTPTransportConfig_init "0.0.0.0" 8080 None) in
  let e := mk_exn JSONDecodeError "Expecting value: line 1 column 1 (char 0)" in
  fst (handle_jsonrpc t (mk_request (Raise e)) (MCPHTTPBridge_init "../build/index.js"))
  = Return (error_dict "Expecting value: line 1 column 1 (char 0)")
  /\ fst (handle_jsonrpc t (mk_request (Raise e))
            (MCPHTTPBridge_init "../build/index.js"))
     <> Return (error_dict "MCP handler not configured")
  /\ fst (handle_jsonrpc t (mk_request (Raise (mk_exn CancelledError EmptyString)))
            (MCPHTTPBridge_init "../build/index.js"))
     = Raise (mk_exn CancelledError EmptyString).
Proof.
  intros t e. split; [ | split].
  - vm_compute. reflexivity.
  - vm_compute. discriminate.
  - vm_compute. reflexivity.
Qed.

(** C9, amended: a POST /mcp request whose body has been read as JSON,
    arriving at a transport on which no handler has been set, gets
    [{"error": "MCP handler not configured"}]: the endpoint returns, it
    neither raises nor hangs, and leaves the state as it was. *)
Theorem C9_handler_not_configured
    (t : HTTPTransport) (request : Request) (body : Json)
    (self : MCPHTTPBridge) :
  mcp_handler t = None ->
  request_json request = Return body ->
  app t POST "/mcp" request self
  = (Return (JsonBody (error_dict "MCP handler not configured")), self)
  /\ handle_jsonrpc t request self
     = (Return (error_dict "MCP handler not configured"), self).
Proof.
  intros Hh Hb.
  unfold app, handle_jsonrpc, try_except_Exception, bind, ret. simpl.
  rewrite Hb, Hh. split; reflexivity.
Qed.

Lemma C9_handler_not_configured_witness :
  let t := HTTPTransport_init (HTTPTransportConfig_init "0.0.0.0" 8080 None) in
  let self := running EmptyString Waiting in
  app t POST "/mcp" (mk_request (Return (req 1))) self
  = (Return (JsonBody (error_dict "MCP handler not configured")), self)
  /\ handle_jsonrpc t (mk_request (Return (req 1))) self
     = (Return (error_dict "MCP handler not configured"), self).
Proof.
  intros t self.
  apply (C9_handler_not_configured t (mk_request (Return (req 1))) (req 1) self);
    reflexivity.
Defined.

(** ** C10: no exception escapes the handler *)

(** C10, as stated, fails on the kind of value returned: the reply line
    [[1, 2]] is valid JSON, and the handler returns the list it denotes,
    which is neither a dictionary nor an object with an "error" key. *)
Lemma C10_reply_need_not_be_a_dictionary :
  fst (handle_mcp_request (req 1) (running ("[1, 2]" ++ newline) AtEOF))
  = Return (JList [JInt 1; JInt 2])
  /\ is_dict (JList [JInt 1; JInt 2]) = false
  /\ has_key "error" (JList [JInt 1; JInt 2]) = false.
Proof. repeat split; vm_compute; reflexivity. Qed.

(** C10, amended: [handle_mcp_request] never lets an exception escape: for
    every request and every behaviour of the subprocess pipes (write
    failure, unparseable reply line, closed stream), it does not raise, and
    what it returns is either the decoded reply, which is whatever JSON
    value the reply line denotes, or a dictionary [{"error": msg}]. It fails
    to return only when a call on the pipes blocks. *)
Theorem C10_no_exception_escapes `{JsonLib}
    (request : Json) (self : MCPHTTPBridge) :
  match fst (handle_mcp_request request self) with
  | Return v => is_reply self v \/ is_error_object v
  | Raise _ => False
  | Hang => exists p, process self = Some p /\ blocks p = true
  end.
Proof.
  destruct (process self) as [p | ] eqn:Hp.
  - pose proof (handle_mcp_request_outcome request self p Hp) as Ho.
    destruct (fst (handle_mcp_request request self)); auto.
    exists p. auto.
  - rewrite (handle_mcp_request_no_process request self Hp). simpl.
    right. eexists. reflexivity.
Qed.

(** * Further properties of the code *)

(** ** POST /mcp, for every handler *)

(** X1: [handle_jsonrpc] lets no instance of [Exception] out, whatever the
    request and whatever handler is set: what it raises, if anything, is an
    exception that is not an [Exception] (a cancellation, an interrupt), which
    the body or the handler raised. *)
Theorem X1_handle_jsonrpc_raises_no_Exception
    (t : HTTPTransport) (request : Request) (self : MCPHTTPBridge) :
  match fst (handle_jsonrpc t request self) with
  | Raise e =>
      is_Exception e = false
      /\ (request_json request = Raise e
          \/ exists h body,
               mcp_handler t = Some h /\ request_json request = Return body
               /\ fst (h body self) = Raise e)
  | _ => True
  end.
Proof.
  unfold handle_jsonrpc, try_except_Exception, bind, ret, logger, modify.
  destruct (request_json request) as [body | e | ] eqn:Hb; simpl.
  - destruct (mcp_handler t) as [h | ] eqn:Hh; simpl; [ | exact I].
    destruct (h body self) as [[v | e | ] self'] eqn:Hc; simpl; try exact I.
    destruct (is_Exception e) eqn:He; simpl; [exact I | ].
    split; [exact He | ]. right. exists h, body. rewrite Hc. auto.
  - destruct (is_Exception e) eqn:He; simpl; [exact I | auto].
  - exact I.
Qed.

(** X2: a request whose body cannot be read as JSON ([request.json()] raises
    an [Exception]) is answered [{"error": str(e)}] whether a handler is set
    or not; the handler is not called and the state changes by one ERROR
    record in the log. *)
Theorem X2_unreadable_body_is_reported
    (t : HTTPTransport) (request : Request) (self : MCPHTTPBridge) (e : exn) :
  request_json request = Raise e ->
  is_Exception e = true ->
  handle_jsonrpc t request self
  = (Return (error_dict (str e)),
     logged self ERROR ("Error handling JSON-RPC request: " ++ str e)).
Proof.
  intros Hb He.
  unfold handle_jsonrpc, try_except_Exception, bind, ret, logger, modify, logged.
  rewrite Hb. simpl. rewrite He. reflexivity.
Qed.

Lemma X2_unreadable_body_is_reported_witness :
  let e := mk_exn JSONDecodeError "Expecting value: line 1 column 1 (char 0)" in
  let t := HTTPTransport_init (HTTPTransportConfig_init "0.0.0.0" 8080 None) in
  let self := running EmptyString Waiting in
  handle_jsonrpc t (mk_request (Raise e)) self
  = (Return (error_dict (str e)),
     logged self ERROR ("Error handling JSON-RPC request: " ++ str e)).
Proof.
  intros e t self.
  apply (X2_unreadable_body_is_reported t (mk_request (Raise e)) self e);
    reflexivity.
Defined.

(** ** The bridge behind POST /mcp *)

Lemma handle_mcp_request_does_not_raise `{JsonLib}
    (request : Json) (self : MCPHTTPBridge) (e : exn) :
  fst (handle_mcp_request request self) <> Raise e.
Proof.
  intros E. destruct (process self) as [p | ] eqn:Hp.
  - pose proof (handle_mcp_request_outcome request self p Hp) as Ho.
    rewrite E in Ho. exact Ho.
  - rewrite (handle_mcp_request_no_process request self Hp) in E.
    discriminate.
Qed.

(** X3: once [start] has launched the subprocess, the bridge holds a
    transport for the given host and port, open to every origin, whose
    handler is [handle_mcp_request]; a POST /mcp request with a JSON body is
    then answered exactly as [handle_mcp_request] answers the body, state
    included. *)
Theorem X3_post_is_answered_by_the_bridge `{JsonLib}
    (os : OS) (h : string) (p : Z) (s : Program) (proc : Popen) :
  popen os ["node"; server_path (bridge s)] = inr proc ->
  exists t,
    transport (snd (start os h p s)) = Some t
    /\ config t = mk_config h p (Some ["*"])
    /\ allow_origins (_setup_middleware t) = ["*"]
    /\ forall request body self,
         request_json request = Return body ->
         handle_jsonrpc t request self = handle_mcp_request body self.
Proof.
  intros He.
  exists (set_mcp_handler
            (HTTPTransport_init (HTTPTransportConfig_init h p None))
            handle_mcp_request).
  split; [ | split; [reflexivity | split; [reflexivity | ]]].
  - unfold start, start_mcp_server, start_http_transport, transport_start.
    unfold try_except_Exception, bind, gets, lift, on_bridge, emit, modify,
      with_transport, set_transport, logger, raise, ret.
    simpl. rewrite He. simpl.
    destruct (serve os h p) as [[ | ] [[] | e | ]]; reflexivity.
  - intros request body self Hb.
    unfold handle_jsonrpc, try_except_Exception, bind, ret. simpl.
    rewrite Hb.
    pose proof (handle_mcp_request_does_not_raise body self) as Hn.
    destruct (handle_mcp_request body self) as [[v | e | ] self'];
      simpl in *; try reflexivity.
    exfalso. apply (Hn e). reflexivity.
Qed.

Lemma X3_post_is_answered_by_the_bridge_witness :
  let os := mk_os (fun argv => inr (fresh argv EmptyString Waiting))
                  (fun _ _ => (true, Hang)) in
  exists t,
    transport
      (snd (start os "0.0.0.0" 8080
              (mk_program (MCPHTTPBridge_init "../build/index.js") None [])))
    = Some t
    /\ config t = mk_config "0.0.0.0" 8080 (Some ["*"])
    /\ allow_origins (_setup_middleware t) = ["*"]
    /\ forall request body self,
         request_json request = Return body ->
         handle_jsonrpc t request self = handle_mcp_request body self.
Proof.
  intros os.
  apply (X3_post_is_answered_by_the_bridge os "0.0.0.0" 8080
           (mk_program (MCPHTTPBridge_init "../build/index.js") None [])
           (fresh ["node"; "../build/index.js"] EmptyString Waiting)).
  reflexivity.
Defined.

(** ** Cross-origin settings *)

(** X4: the origins given to the CORS middleware are never empty. A
    configuration built with a non-empty list of origins passes that list on;
    one built with no list or with the empty list allows every origin. *)
Theorem X4_cors_origins_are_never_empty
    (t : HTTPTransport) (h : string) (p : Z) (origins : option (list string)) :
  allow_origins (_setup_middleware t) <> []
  /\ allow_origins
       (_setup_middleware (HTTPTransport_init (HTTPTransportConfig_init h p origins)))
     = match origins with
       | Some (o :: l) => o :: l
       | _ => ["*"]
       end.
Proof.
  split.
  - unfold _setup_middleware. simpl.
    destruct (cors_origins (config t)) as [[ | o l] | ]; discriminate.
  - destruct origins as [[ | o l] | ]; reflexivity.
Qed.

(** ** What a request does to the bridge and to the pipes *)

(** Opens every call of the handler on a bridge whose subprocess is known. *)
Ltac run_handler Hp :=
  unfold handle_mcp_request; rewrite Hp;
  unfold try_except_Exception, bind, lift, on_process, stdin_write,
    stdin_flush, stdout_readline, ret, logger, modify, faulty, set_process,
    set_stdout_text;
  simpl; try rewrite Hp; simpl.

(** Splits the goal along the next test of the code. *)
Ltac next_case :=
  match goal with
  | Hp : process ?s = Some _ |- context [process ?s] => rewrite Hp; simpl
  | |- context [json_dumps ?r] => destruct (json_dumps r) eqn:?; simpl
  | |- context [stdin_write_fault ?p] =>
      destruct (stdin_write_fault p) as [[? | ] | ] eqn:?; simpl
  | |- context [stdin_flush_fault ?p] =>
      destruct (stdin_flush_fault p) as [[? | ] | ] eqn:?; simpl
  | |- context [take_line ?t] =>
      destruct (take_line t) as [[? ?] | ] eqn:?; simpl
  | |- context [match stdout_end ?p with _ => _ end] =>
      destruct (stdout_end p) eqn:?; simpl
  | |- context [truthy ?l] => destruct (truthy l) eqn:?; simpl
  | |- context [json_loads ?l] => destruct (json_loads l) eqn:?; simpl
  | |- context [is_Exception ?e] => destruct (is_Exception e) eqn:?; simpl
  end.

(** X5: a request changes nothing of the bridge but the content of the pipes
    and the log: the path of the server stays, a bridge with a subprocess
    keeps one and a bridge without keeps none, the log grows by at most one
    record, which is an ERROR, and the subprocess is neither relaunched nor
    signalled. *)
Theorem X5_request_keeps_the_bridge `{JsonLib}
    (request : Json) (self : MCPHTTPBridge) :
  let self' := snd (handle_mcp_request request self) in
  server_path self' = server_path self
  /\ (process self' = None <-> process self = None)
  /\ (log self' = log self \/ exists msg, log self' = (log self ++ [(ERROR, msg)])%list)
  /\ forall p p',
       process self = Some p -> process self' = Some p' ->
       args p' = args p /\ signalled p' = signalled p.
Proof.
  intros self'. subst self'.
  destruct (process self) as [p | ] eqn:Hp.
  - run_handler Hp.
    repeat next_case;
      (split; [reflexivity | ]);
      (split; [split; discriminate | ]);
      (split; [first [left; reflexivity | right; eexists; reflexivity] | ]);
      intros q q' Eq Eq'; inversion Eq; inversion Eq'; subst; simpl; auto 10.
  - rewrite (handle_mcp_request_no_process request self Hp). simpl.
    rewrite Hp. split; [reflexivity | ]. split; [tauto | ].
    split; [left; reflexivity | ]. intros q q' E. discriminate.
Qed.

(** X6: a request that cannot be sent (its serialization raises, or the
    write or the flush on the standard input raises) is answered
    [{"error": str(e)}] and logged as one ERROR record, and the pipes are
    left as they were but for the write buffer: no line is read from the
    standard output, so a reply that waits there is left for the next
    request, nothing is delivered to the subprocess, and the text of the
    request is in the write buffer once when it was the flush that raised,
    and not at all otherwise. *)
Theorem X6_failed_send_reads_nothing `{JsonLib}
    (request : Json) (self : MCPHTTPBridge) (p : Popen) (e : exn) :
  process self = Some p ->
  send_fails request p e ->
  handle_mcp_request request self
  = (Return (error_dict (str e)),
     logged
       (set_process self
          (Some (match json_dumps request, stdin_write_fault p with
                 | inr d, None =>
                     mk_Popen (args p) (stdin_write_fault p)
                       (stdin_flush_fault p)
                       (stdin_buffer p ++ d ++ backslash_n) (stdin_sent p)
                       (stdout_text p) (stdout_end p) (signalled p)
                       (wait_fault p)
                 | _, _ => p
                 end)))
       ERROR ("Error handling MCP request: " ++ str e)).
Proof.
  intros Hp [Hd | [d [io [Hd [He [Hw | [Hw Hf]]]]]]]; subst;
    run_handler Hp; rewrite Hd; simpl; unfold logged, set_process; simpl.
  - rewrite (json_dumps_raises _ _ Hd). simpl. rewrite Hp. reflexivity.
  - rewrite Hp, Hw. simpl. rewrite exn_of_io_is_Exception. reflexivity.
  - rewrite Hp, Hw. simpl. rewrite Hf. simpl.
    rewrite exn_of_io_is_Exception. reflexivity.
Qed.

Lemma X6_failed_send_reads_nothing_witness :
  let p := mk_Popen ["node"; "../build/index.js"] None (Some (Fails BrokenPipe))
             EmptyString EmptyString (reply_line (reply 1)) AtEOF false None in
  let self := mk_bridge "../build/index.js" (Some p) [] in
  handle_mcp_request (req 1) self
  = (Return (error_dict "[Errno 32] Broken pipe"),
     mk_bridge "../build/index.js"
       (Some (mk_Popen ["node"; "../build/index.js"] None
                (Some (Fails BrokenPipe))
                (PyJson.py_dumps (req 1) ++ backslash_n) EmptyString
                (reply_line (reply 1)) AtEOF false None))
       [(ERROR, "Error handling MCP request: [Errno 32] Broken pipe")]).
Proof.
  intros p self.
  assert (Hs : send_fails (req 1) p (exn_of_io BrokenPipe)).
  { right. exists (PyJson.py_dumps (req 1)), BrokenPipe.
    split; [reflexivity | ]. split; [reflexivity | ].
    right. split; reflexivity. }
  exact (X6_failed_send_reads_nothing (req 1) self p (exn_of_io BrokenPipe)
           eq_refl Hs).
Defined.

Lemma take_line_append (s line rest : string) :
  take_line s = Some (line, rest) -> s = line ++ rest.
Proof.
  revert line rest. induction s as [ | c s IH]; simpl; intros line rest.
  - discriminate.
  - destruct (Ascii.eqb c ch_newline).
    + intros E; inversion E; reflexivity.
    + destruct (take_line s) as [[l r] | ]; [ | discriminate].
      intros E; inversion E; subst. simpl. f_equal. apply IH. reflexivity.
Qed.

(** X7: a request takes at most one line off the standard output of the
    subprocess, from its front: either nothing is read, or the first line
    with its newline, or, at the end of the file, the unfinished line that is
    left. What follows stays in the pipe for the next request. *)
Theorem X7_request_reads_at_most_one_line `{JsonLib}
    (request : Json) (self : MCPHTTPBridge) (p : Popen) :
  process self = Some p ->
  exists p',
    process (snd (handle_mcp_request request self)) = Some p'
    /\ (stdout_text p' = stdout_text p
        \/ (exists line,
              take_line (stdout_text p) = Some (line, stdout_text p')
              /\ stdout_text p = line ++ stdout_text p')
        \/ (take_line (stdout_text p) = None /\ stdout_end p = AtEOF
            /\ stdout_text p' = EmptyString)).
Proof.
  intros Hp. run_handler Hp.
  repeat next_case;
    eexists; (split; [reflexivity | ]); simpl;
    first [ left; reflexivity
          | right; left; eexists; split;
            [reflexivity | apply take_line_append; assumption]
          | right; right; auto ].
Qed.

Lemma X7_request_reads_at_most_one_line_witness :
  let self := running (reply_line (reply 1) ++ reply_line (reply 2)) Waiting in
  exists p',
    process (snd (handle_mcp_request (req 1) self)) = Some p'
    /\ (stdout_text p' = reply_line (reply 1) ++ reply_line (reply 2)
        \/ (exists line,
              take_line (reply_line (reply 1) ++ reply_line (reply 2))
              = Some (line, stdout_text p')
              /\ reply_line (reply 1) ++ reply_line (reply 2)
                 = line ++ stdout_text p')
        \/ (take_line (reply_line (reply 1) ++ reply_line (reply 2)) = None
            /\ Waiting = AtEOF /\ stdout_text p' = EmptyString)).
Proof.
  intros self.
  apply (X7_request_reads_at_most_one_line (req 1) self
           (fresh ["node"; "../build/index.js"]
                  (reply_line (reply 1) ++ reply_line (reply 2)) Waiting)).
  reflexivity.
Defined.

(** ** Requests in a row *)

Lemma append_nil_r (s : string) : s ++ EmptyString = s.
Proof. induction s as [ | c s IH]; simpl; [reflexivity | now rewrite IH]. Qed.

Lemma serve_all_pipes `{JsonLib} (requests : list Json) :
  forall (ds lines : list string) (path : string) (p : Popen)
         (lg : list log_record) (rest : string),
    Forall2 (fun r d => json_dumps r = inr d) requests ds ->
    length lines = length requests ->
    Forall (fun l => has_newline l = false) lines ->
    stdin_write_fault p = None ->
    stdin_flush_fault p = None ->
    stdout_text p = lines_text lines ++ rest ->
    exists p' lg',
      snd (serve_all requests (mk_bridge path (Some p) lg))
      = mk_bridge path (Some p') lg'
      /\ stdout_text p' = rest
      /\ stdin_sent p' ++ stdin_buffer p'
         = stdin_sent p ++ stdin_buffer p ++ frames ds.
Proof.
  induction requests as [ | r requests IH];
    intros ds lines path p lg rest Hd Hlen Hl Hw Hf Hout.
  - inversion Hd; subst. destruct lines; [ | discriminate].
    exists p, lg. split; [reflexivity | ]. split; [exact Hout | ].
    cbn [frames]. rewrite append_nil_r. reflexivity.
  - inversion Hd as [ | ? d ? ds' Hd1 Hd']; subst.
    destruct lines as [ | l lines]; [discriminate | ].
    inversion Hl as [ | ? ? Hn Hl']; subst.
    simpl in Hout.
    assert (Ht : take_line (stdout_text p)
                 = Some (l ++ newline, lines_text lines ++ rest)).
    { rewrite Hout, !append_assoc. apply take_line_app. exact Hn. }
    destruct (handle_mcp_request_round_trip r path p lg d _ _ Hd1 Hw Hf Ht)
      as [lg1 Hstep].
    destruct (IH ds' lines path
                 (after_round_trip p d (lines_text lines ++ rest)) lg1 rest)
      as [p' [lg' [Hs [Ho Hi]]]]; auto.
    exists p', lg'. simpl. rewrite Hstep.
    destruct (serve_all requests _) as [os self'']. simpl in *.
    split; [exact Hs | ]. split; [exact Ho | ].
    rewrite Hi. unfold after_round_trip.
    cbn [stdin_sent stdin_buffer frames append]. rewrite !append_assoc.
    reflexivity.
Qed.

(** X8: requests served in a row on healthy pipes are written to the
    subprocess in the order of service, each closed by a backslash and an n,
    and the k-th of them is answered from the k-th line that the subprocess
    wrote: with the value the line denotes, or with [{"error": str(e)}] when
    the line does not decode, which costs the other requests nothing. The
    lines beyond the last request stay in the pipe. *)
Theorem X8_requests_in_a_row `{JsonLib}
    (requests : list Json) (ds lines : list string) (path : string)
    (p : Popen) (lg : list log_record) (rest : string) :
  Forall2 (fun r d => json_dumps r = inr d) requests ds ->
  length lines = length requests ->
  Forall (fun l => has_newline l = false) lines ->
  stdin_write_fault p = None ->
  stdin_flush_fault p = None ->
  stdout_text p = lines_text lines ++ rest ->
  fst (serve_all requests (mk_bridge path (Some p) lg))
  = map (fun l => decoded (l ++ newline)) lines
  /\ exists p',
       process (snd (serve_all requests (mk_bridge path (Some p) lg))) = Some p'
       /\ stdout_text p' = rest
       /\ stdin_sent p' ++ stdin_buffer p'
          = stdin_sent p ++ stdin_buffer p ++ frames ds.
Proof.
  intros Hd Hlen Hl Hw Hf Hout. split.
  - apply (serve_all_in_order requests lines path p lg rest); auto.
    clear - Hd. induction Hd; constructor; eauto.
  - destruct (serve_all_pipes requests ds lines path p lg rest Hd Hlen Hl Hw Hf Hout)
      as [p' [lg' [Hs [Ho Hi]]]].
    exists p'. rewrite Hs. auto.
Qed.

Lemma X8_requests_in_a_row_witness :
  let p := fresh ["node"; "../build/index.js"]
             (lines_text [PyJson.py_dumps (reply 1); "oops";
                          PyJson.py_dumps (reply 3)]
              ++ reply_line (reply 4)) Waiting in
  let ds := map PyJson.py_dumps [req 1; req 2; req 3] in
  fst (serve_all [req 1; req 2; req 3] (mk_bridge "../build/index.js" (Some p) []))
  = map (fun l => decoded (l ++ newline))
        [PyJson.py_dumps (reply 1); "oops"; PyJson.py_dumps (reply 3)]
  /\ exists p',
       process (snd (serve_all [req 1; req 2; req 3]
                       (mk_bridge "../build/index.js" (Some p) [])))
       = Some p'
       /\ stdout_text p' = reply_line (reply 4)
       /\ stdin_sent p' ++ stdin_buffer p'
          = stdin_sent p ++ stdin_buffer p ++ frames ds.
Proof.
  intros p ds.
  apply (X8_requests_in_a_row [req 1; req 2; req 3] ds
           [PyJson.py_dumps (reply 1); "oops"; PyJson.py_dumps (reply 3)]
           "../build/index.js" p [] (reply_line (reply 4)));
    try reflexivity.
  - repeat constructor.
  - repeat constructor.
Defined.

(** X9: a reply line that holds white space only is not taken for a missing
    reply: it is read off the pipe, stripped to the empty text and handed to
    [json.loads], and the caller gets the decoder's error for the empty text
    as [{"error": str(e)}] instead of ["No response from MCP server"]. *)
Theorem X9_blank_line_is_a_decoding_error `{JsonLib}
    (request : Json) (self : MCPHTTPBridge) (p : Popen)
    (d line rest : string) (e : exn) :
  process self = Some p ->
  json_dumps request = inr d ->
  stdin_write_fault p = None ->
  stdin_flush_fault p = None ->
  take_line (stdout_text p) = Some (line, rest) ->
  strip line = EmptyString ->
  json_loads EmptyString = inl e ->
  fst (handle_mcp_request request self) = Return (error_dict (str e))
  /\ exists p',
       process (snd (handle_mcp_request request self)) = Some p'
       /\ stdout_text p' = rest.
Proof.
  intros Hp Hd Hw Hf Ht Hs He.
  pose proof (take_line_truthy _ _ _ Ht) as Hl.
  run_handler Hp. rewrite Hd. simpl. rewrite Hp, Hw. simpl.
  rewrite Hf. simpl. rewrite Ht. simpl. rewrite Hl, Hs, He. simpl.
  rewrite (json_loads_raises _ _ He). simpl.
  split; [reflexivity | eexists; split; reflexivity].
Qed.

Lemma X9_blank_line_is_a_decoding_error_witness :
  let self := running (newline ++ reply_line (reply 1)) Waiting in
  let e := mk_exn JSONDecodeError "Expecting value: line 1 column 1 (char 0)" in
  fst (handle_mcp_request (req 1) self) = Return (error_dict (str e))
  /\ exists p',
       process (snd (handle_mcp_request (req 1) self)) = Some p'
       /\ stdout_text p' = reply_line (reply 1).
Proof.
  intros self e.
  apply (X9_blank_line_is_a_decoding_error (req 1) self
           (fresh ["node"; "../build/index.js"]
                  (newline ++ reply_line (reply 1)) Waiting)
           (PyJson.py_dumps (req 1)) newline (reply_line (reply 1)) e);
    reflexivity.
Defined.

(** ** Shutdown *)

(** X10: [stop] on a bridge with a subprocess signals it and then waits for
    it, and what the wait does decides what [stop] does: when the wait
    returns, [stop] logs and returns; when the wait raises or blocks, [stop]
    raises the same or blocks, and nothing is logged. In every case the
    subprocess has been signalled and [process] stays set, so the bridge does
    not go back to having no subprocess, and a second [stop] signals and
    waits once more. *)
Theorem X10_stop_keeps_the_process (s : Program) (p : Popen) :
  process (bridge s) = Some p ->
  let signalled_p :=
    mk_Popen (args p) (stdin_write_fault p) (stdin_flush_fault p)
      (stdin_buffer p) (stdin_sent p) (stdout_text p) (stdout_end p) true
      (wait_fault p) in
  process (bridge (snd (stop s))) = Some signalled_p
  /\ match wait_fault p with
     | None =>
         fst (stop s) = Return tt
         /\ trace (snd (stop s)) = (trace s ++ [Stopped])%list
         /\ log (bridge (snd (stop s)))
            = (log (bridge s) ++ [(INFO, "MCP server process stopped")])%list
         /\ trace (snd (stop (snd (stop s))))
            = (trace s ++ [Stopped; Stopped])%list
     | Some f =>
         fst (stop s) = faulty f
         /\ trace (snd (stop s)) = trace s
         /\ log (bridge (snd (stop s))) = log (bridge s)
         /\ fst (stop (snd (stop s))) = faulty f
     end.
Proof.
  intros Hp signalled_p. subst signalled_p.
  unfold stop. rewrite Hp.
  unfold bind, on_bridge, on_process, terminate, wait, emit, logger, modify,
    set_process.
  simpl. rewrite Hp. simpl.
  destruct (wait_fault p) as [[e | ] | ] eqn:Hw; simpl; rewrite ?Hw; simpl;
    rewrite <- ?app_assoc; auto.
Qed.

Lemma X10_stop_keeps_the_process_witness :
  let p := mk_Popen ["node"; "../build/index.js"] None None EmptyString
             EmptyString (reply_line (reply 1)) Waiting false (Some Blocks) in
  let s := mk_program (mk_bridge "../build/index.js" (Some p) []) None
             [Launched ["node"; "../build/index.js"]] in
  process (bridge (snd (stop s)))
  = Some (mk_Popen ["node"; "../build/index.js"] None None EmptyString
            EmptyString (reply_line (reply 1)) Waiting true (Some Blocks))
  /\ fst (stop s) = Hang
  /\ trace (snd (stop s)) = trace s
  /\ log (bridge (snd (stop s))) = log (bridge s)
  /\ fst (stop (snd (stop s))) = Hang.
Proof.
  intros p s. apply (X10_stop_keeps_the_process s p). reflexivity.
Defined.

(** X11: whatever ends the serving, [main] stops the subprocess it launched
    before it ends: the subprocess is signalled and then waited for, after
    the last thing the server did. When the wait returns, a
    [KeyboardInterrupt] of the server is absorbed and [main] returns, and any
    other exception of the server is raised again; when the wait raises or
    blocks, [main] raises the same or blocks, whatever the server did. *)
Theorem X11_main_stops_what_it_launched `{JsonLib}
    (os : OS) (h : string) (p : Z) (server : string) (proc : Popen) :
  popen os ["node"; server] = inr proc ->
  snd (serve os h p) <> Hang ->
  fst (main os h p server)
  = match wait_fault proc with
    | Some f => faulty f
    | None =>
        match snd (serve os h p) with
        | Raise e => if is_KeyboardInterrupt e then Return tt else Raise e
        | o => o
        end
    end
  /\ trace (snd (main os h p server))
     = (Launched ["node"; server]
          :: (if fst (serve os h p) then [Accepting h p] else [])
          ++ match wait_fault proc with
             | None => [Stopped]
             | Some _ => []
             end)%list
  /\ exists p',
       process (bridge (snd (main os h p server))) = Some p'
       /\ signalled p' = true.
Proof.
  intros He Hs.
  unfold main, try_finally, try_except_KeyboardInterrupt.
  unfold start, start_mcp_server, start_http_transport, transport_start, stop.
  unfold try_except_Exception, bind, gets, lift, on_bridge, emit, modify,
    with_transport, set_transport, logger, raise, ret, on_process, terminate,
    wait, set_process.
  simpl. rewrite He. simpl.
  destruct (serve os h p) as [[ | ] [[] | e | ]]; simpl in *;
    try (exfalso; apply Hs; reflexivity);
    try destruct (is_KeyboardInterrupt e); simpl;
    destruct (wait_fault proc) as [[io | ] | ] eqn:Hw; simpl;
    rewrite ?Hw; simpl; eauto.
Qed.

Lemma X11_main_stops_what_it_launched_witness :
  let os := mk_os (fun argv => inr (fresh argv EmptyString Waiting))
                  (fun _ _ => (true, Raise (mk_exn KeyboardInterrupt EmptyString))) in
  fst (main os "0.0.0.0" 8080 "../build/index.js") = Return tt
  /\ trace (snd (main os "0.0.0.0" 8080 "../build/index.js"))
     = [Launched ["node"; "../build/index.js"]; Accepting "0.0.0.0" 8080; Stopped]
  /\ exists p',
       process (bridge (snd (main os "0.0.0.0" 8080 "../build/index.js")))
       = Some p'
       /\ signalled p' = true.
Proof.
  intros os.
  apply (X11_main_stops_what_it_launched os "0.0.0.0" 8080 "../build/index.js"
           (fresh ["node"; "../build/index.js"] EmptyString Waiting));
    [reflexivity | discriminate].
Defined.

(** ** The heartbeat generator *)

(** X12: a [CancelledError] raised in [event_stream] where it is suspended,
    at its [yield] or in its sleep, ends it as a return: no exception comes
    out, and asked again it gives nothing more. Any other exception thrown in
    at those points comes out of the generator as it is. *)
Theorem X12_cancelled_stream_returns `{JsonLib}
    (st : gen_state) (e : exn) :
  suspended st = true ->
  (is_CancelledError e = true ->
   event_stream st (Throw e) = (StopAsyncIteration, Finished)
   /\ forall clocks,
        fst (event_stream_run Finished (map Resume clocks))
        = map (fun _ => StopAsyncIteration) clocks)
  /\ (is_CancelledError e = false ->
      event_stream st (Throw e) = (Propagate e, Finished)).
Proof.
  intros Hs. split; intros He.
  - split.
    + destruct st; try discriminate; simpl;
        unfold except_CancelledError; rewrite He; reflexivity.
    + induction clocks as [ | c clocks IH]; simpl; [reflexivity | ].
      destruct (event_stream_run Finished (map Resume clocks)) as [os st'].
      simpl in *. rewrite IH. reflexivity.
  - destruct st; try discriminate; simpl;
      unfold except_CancelledError; rewrite He; reflexivity.
Qed.

Lemma X12_cancelled_stream_returns_witness :
  event_stream AtSleep (Throw (mk_exn CancelledError EmptyString))
  = (StopAsyncIteration, Finished)
  /\ forall clocks,
       fst (event_stream_run Finished (map Resume clocks))
       = map (fun _ => StopAsyncIteration) clocks.
Proof.
  apply (proj1 (X12_cancelled_stream_returns
                  AtSleep (mk_exn CancelledError EmptyString) eq_refl)).
  reflexivity.
Defined.

Lemma event_stream_alternates `{JsonLib} (clocks : list Json) :
  Forall (fun c => exists data, json_dumps (heartbeat_dict c) = inr data) clocks ->
  forall st,
    st <> Finished ->
    snd (event_stream_run st (map Resume clocks)) <> Finished
    /\ forall k c,
         nth_error clocks k = Some c ->
         if Bool.eqb (Nat.even k) (at_loop_head st)
         then exists data,
                json_dumps (heartbeat_dict c) = inr data
                /\ nth_error (fst (event_stream_run st (map Resume clocks))) k
                   = Some (Yield ("data: " ++ data ++ newline ++ newline))
         else nth_error (fst (event_stream_run st (map Resume clocks))) k
              = Some (Await 30).
Proof.
  induction 1 as [ | c clocks [data Hd] Hall IH]; intros st Hst.
  - simpl. split; [exact Hst | ]. intros [ | k] c0; discriminate.
  - assert (Hhead : loop_head c
                    = (Yield ("data: " ++ data ++ newline ++ newline), AtYield)).
    { unfold loop_head, heartbeat. unfold heartbeat_dict in Hd.
      rewrite Hd. reflexivity. }
    assert (Hstep : exists o st',
               event_stream st (Resume c) = (o, st') /\ st' <> Finished
               /\ at_loop_head st' = negb (at_loop_head st)
               /\ o = if at_loop_head st
                      then Yield ("data: " ++ data ++ newline ++ newline)
                      else Await 30).
    { destruct st; simpl; try contradiction; rewrite ?Hhead;
        eexists; eexists; repeat split; discriminate. }
    destruct Hstep as [o [st' [Hev [Hst' [Hat Ho]]]]].
    cbn [map event_stream_run]. rewrite Hev.
    destruct (IH st' Hst') as [Hfin Hnth].
    destruct (event_stream_run st' (map Resume clocks)) as [os st''] eqn:Hrun.
    simpl in *. split; [exact Hfin | ].
    intros [ | k] c0 Hk.
    + simpl in Hk. inversion Hk; subst c0. subst o. simpl.
      destruct (at_loop_head st); simpl; [exists data | ]; auto.
    + simpl in Hk. specialize (Hnth k c0 Hk).
      rewrite Hat in Hnth. rewrite Nat.even_succ. unfold Nat.odd.
      simpl nth_error.
      destruct (Nat.even k), (at_loop_head st); simpl in *; exact Hnth.
Qed.

(** ** C7: the heartbeat stream *)





(** X13: as long as it is resumed and not cancelled, [event_stream] never
    ends, and what it gives alternates from the first resumption on: a
    heartbeat [data: {...}] closed by two newlines, then a sleep of 30
    seconds, then the next heartbeat, so that no sleep goes without a
    heartbeat before it and every sleep lasts the same fixed 30 seconds. *)
Theorem X13_heartbeats_alternate_with_sleeps `{JsonLib} (clocks : list Json) :
  Forall (fun c => exists data, json_dumps (heartbeat_dict c) = inr data) clocks ->
  snd (event_stream_run NotStarted (map Resume clocks)) <> Finished
  /\ forall k c,
       nth_error clocks k = Some c ->
       if Nat.even k
       then exists data,
              json_dumps (heartbeat_dict c) = inr data
              /\ nth_error (fst (event_stream_run NotStarted (map Resume clocks))) k
                 = Some (Yield ("data: " ++ data ++ newline ++ newline))
       else nth_error (fst (event_stream_run NotStarted (map Resume clocks))) k
            = Some (Await 30).
Proof.
  intros Hall.
  destruct (event_stream_alternates clocks Hall NotStarted) as [Hfin Hnth];
    [discriminate | ].
  split; [exact Hfin | ].
  intros k c Hk. specialize (Hnth k c Hk). simpl in Hnth.
  destruct (Nat.even k); simpl in Hnth; exact Hnth.
Qed.

Lemma X13_heartbeats_alternate_with_sleeps_witness :
  let clocks := [JInt 100; JInt 100; JInt 130; JInt 130] in
  snd (event_stream_run NotStarted (map Resume clocks)) <> Finished
  /\ forall k c,
       nth_error clocks k = Some c ->
       if Nat.even k
       then exists data,
              json_dumps (heartbeat_dict c) = inr data
              /\ nth_error (fst (event_stream_run NotStarted (map Resume clocks))) k
                 = Some (Yield ("data: " ++ data ++ newline ++ newline))
       else nth_error (fst (event_stream_run NotStarted (map Resume clocks))) k
            = Some (Await 30).
Proof.
  intros clocks.
  apply (X13_heartbeats_alternate_with_sleeps clocks).
  repeat constructor; eexists; reflexivity.
Defined.

(** ** The last line of a subprocess that has gone *)

(** X14: when the standard output is at its end and what is left on it is a
    text without a newline, the request takes all of it as its reply line:
    the caller gets the value it denotes, or [{"error": str(e)}] when it does
    not decode, and the pipe is left empty. *)
Theorem X14_unfinished_last_line_is_decoded `{JsonLib}
    (request : Json) (self : MCPHTTPBridge) (p : Popen) (d : string) :
  process self = Some p ->
  json_dumps request = inr d ->
  stdin_write_fault p = None ->
  stdin_flush_fault p = None ->
  take_line (stdout_text p) = None ->
  stdout_end p = AtEOF ->
  truthy (stdout_text p) = true ->
  fst (handle_mcp_request request self) = decoded (stdout_text p)
  /\ exists p',
       process (snd (handle_mcp_request request self)) = Some p'
       /\ stdout_text p' = EmptyString.
Proof.
  intros Hp Hd Hw Hf Ht He Hl.
  run_handler Hp. rewrite Hd. simpl. rewrite Hp, Hw. simpl.
  rewrite Hf. simpl. rewrite Ht, He. simpl. rewrite Hl. unfold decoded.
  destruct (json_loads (strip (stdout_text p))) as [e | v] eqn:Hj; simpl.
  - rewrite (json_loads_raises _ _ Hj). simpl.
    split; [reflexivity | eexists; split; reflexivity].
  - split; [reflexivity | eexists; split; reflexivity].
Qed.

Lemma X14_unfinished_last_line_is_decoded_witness :
  let self := running (PyJson.py_dumps (reply 1)) AtEOF in
  fst (handle_mcp_request (req 1) self) = decoded (PyJson.py_dumps (reply 1))
  /\ exists p',
       process (snd (handle_mcp_request (req 1) self)) = Some p'
       /\ stdout_text p' = EmptyString.
Proof.
  intros self.
  apply (X14_unfinished_last_line_is_decoded (req 1) self
           (fresh ["node"; "../build/index.js"] (PyJson.py_dumps (reply 1)) AtEOF)
           (PyJson.py_dumps (req 1)));
    reflexivity.
Defined.
